(** * check_apc: a monitoring probe for an APC UPS

    A shallow embedding of [check_apc.py] and the properties of its threshold
    evaluation, severity aggregation, error handling and report format.

    Conventions of the embedding:
    - a Python [str] is a list of Unicode code points ([str := list N]);
      literals are written [u "..."];
    - a Python [float] is an IEEE 754 binary64 number, i.e. a primitive
      [float] of Rocq, with the comparisons of [PrimFloat];
    - a Python [dict] is a [gmap];
    - exceptions are the left injection of a sum ([except A := exn + A]);
    - the two things the program takes from its environment are arguments of
      [main]: the [Namespace] built by argparse and the result of running
      [/sbin/apcaccess status]. *)

From Stdlib Require Import ZArith List Ascii String Floats SpecFloat.
From Stdlib Require Import DecimalString.
From stdpp Require Import gmap list.

Open Scope Z_scope.

(** ** Strings *)

Module Str.

(** A character is a code point, a string a list of them. *)
Abbreviation char := N.
Abbreviation str := (list N).

Definition u (s : string) : str := map N_of_ascii (list_ascii_of_string s).

(** [Py_UNICODE_ISSPACE]: the characters removed by [str.strip()]. *)
Definition isspace (c : char) : bool :=
  ((9 <=? c) && (c <=? 13) || (28 <=? c) && (c <=? 32) || (c =? 133) || (c =? 160)
   || (c =? 5760) || (8192 <=? c) && (c <=? 8202) || (c =? 8232) || (c =? 8233)
   || (c =? 8239) || (c =? 8287) || (c =? 12288))%N.

(** [Py_UNICODE_ISLINEBREAK]: the line boundaries of [str.splitlines()]. *)
Definition islinebreak (c : char) : bool :=
  ((10 <=? c) && (c <=? 13) || (28 <=? c) && (c <=? 30) || (c =? 133)
   || (c =? 8232) || (c =? 8233))%N.

Fixpoint lstrip (s : str) : str :=
  match s with
  | c :: s' => if isspace c then lstrip s' else s
  | [] => []
  end.

Definition rstrip (s : str) : str := rev (lstrip (rev s)).

Definition strip (s : str) : str := rstrip (lstrip s).

(** [s.splitlines()]: [cur] holds, reversed, the characters of the line being
    read.  A carriage return followed by a line feed is one boundary, and a
    text that ends in a boundary has no empty last line. *)
Fixpoint splitlines_from (cur : str) (s : str) : list str :=
  match s with
  | [] => match cur with [] => [] | _ => [rev cur] end
  | c :: s' =>
      if islinebreak c then
        match s' with
        | c' :: s'' =>
            if ((c =? 13) && (c' =? 10))%N
            then rev cur :: splitlines_from [] s''
            else rev cur :: splitlines_from [] s'
        | [] => [rev cur]
        end
      else splitlines_from (c :: cur) s'
  end.

Definition splitlines (s : str) : list str := splitlines_from [] s.

Definition colon : char := 58%N.

(** [":" in line] *)
Definition has_colon (line : str) : bool := existsb (N.eqb colon) line.

(** [line.split(":", maxsplit=1)] for a line that has a colon: the text before
    the first colon and the text after it. *)
Fixpoint split_colon (line : str) : str * str :=
  match line with
  | [] => ([], [])
  | c :: s => if (c =? colon)%N then ([], s)
              else let '(k, v) := split_colon s in (c :: k, v)
  end.

(** [sep.join(l)] *)
Fixpoint join (sep : str) (l : list str) : str :=
  match l with
  | [] => []
  | [x] => x
  | x :: l' => x ++ sep ++ join sep l'
  end.

(** The longest prefix of [s] whose characters satisfy [p], and the rest. *)
Fixpoint span (p : char -> bool) (s : str) : str * str :=
  match s with
  | c :: s' => if p c then let '(a, b) := span p s' in (c :: a, b) else ([], s)
  | [] => ([], [])
  end.

(** The first character of [s] when it satisfies [p], and the rest. *)
Definition opt (p : char -> bool) (s : str) : str * str :=
  match s with
  | c :: s' => if p c then ([c], s') else ([], s)
  | [] => ([], [])
  end.

End Str.
Import Str.

(** ** Floats *)

Module Float.

(** The binary64 number nearest to [n / d] (ties to even), for [0 <= n] and
    [0 < d], with the sign [neg].  The quotient is taken with at least 56
    significant bits and a sticky bit for the remainder, then rounded once. *)
Definition round_ratio (neg : bool) (n d : Z) : float :=
  if n =? 0 then (if neg then neg_zero else zero)
  else
    let s := Z.max 0 (Z.log2 d + 56 - Z.log2 n) in
    let q := (n * 2 ^ s) / d in
    let sticky := if (n * 2 ^ s) mod d =? 0 then 0 else 1 in
    let m := 2 * q + sticky in
    SF2Prim (binary_normalize prec emax (if neg then - m else m) (- s - 1) neg).

(** The binary64 number nearest to [m * 10 ^ x], for [0 <= m]. *)
Definition of_decimal (neg : bool) (m x : Z) : float :=
  if 0 <=? x then round_ratio neg (m * 10 ^ x) 1 else round_ratio neg m (10 ^ (- x)).

Definition isdigit (c : char) : bool := ((48 <=? c) && (c <=? 57))%N.
Definition issign (c : char) : bool := ((c =? 43) || (c =? 45))%N.
Definition isdot (c : char) : bool := (c =? 46)%N.

(** The value of a run of decimal digits read after the value [acc]. *)
Fixpoint digits_value (acc : Z) (s : str) : Z :=
  match s with
  | [] => acc
  | c :: s' => digits_value (10 * acc + (Z.of_N c - 48)) s'
  end.

(** Python's [float(s)] on the strings the program passes to it, which are
    matches of [[-+]?[0-9]*\.?[0-9]*]: an optional sign, digits, an optional
    point, digits.  [None] stands for [ValueError], raised when there is no
    digit or when anything is left over. *)
Definition float_of_str (s : str) : option float :=
  let '(neg, s1) := match s with
                    | c :: s' => if issign c then ((c =? 45)%N, s') else (false, s)
                    | [] => (false, s)
                    end in
  let '(ip, s2) := span isdigit s1 in
  let '(fp, rest) := match s2 with
                     | c :: s' => if isdot c then span isdigit s' else ([], s2)
                     | [] => ([], s2)
                     end in
  match rest, ip ++ fp with
  | _ :: _, _ => None
  | [], [] => None
  | [], ds => Some (of_decimal neg (digits_value 0 ds) (- Z.of_nat (length fp)))
  end.

(** The decimal digits of [n], for [0 <= n]. *)
Definition digits_of (n : Z) : str := u (NilZero.string_of_uint (N.to_uint (Z.to_N n))).

Definition rstrip_zeros (s : str) : str := rev (snd (span (N.eqb 48) (rev s))).

(** The numerator and denominator of [num / den / 10 ^ x]. *)
Definition scale10 (num den x : Z) : Z * Z :=
  if 0 <=? x then (num, den * 10 ^ x) else (num * 10 ^ (- x), den).

(** The position of the decimal point of [num / den > 0]: the [t] with
    [10 ^ (t - 1) <= num / den < 10 ^ t]. *)
Definition decimal_point (num den : Z) : Z :=
  let t := Z.of_nat (length (digits_of num)) - Z.of_nat (length (digits_of den)) in
  let '(a, b) := scale10 num den t in
  if a <? b then t else t + 1.

(** The shortest decimal [d * 10 ^ x] that [float] reads back as [f], where
    [f = num / den > 0] and [t] is its decimal point: with [p] digits the two
    candidates are the neighbours of [f]; when both read back as [f] the nearer
    is taken, the even one on a tie.  Seventeen digits always suffice. *)
Fixpoint shortest_from (fuel : nat) (f : float) (num den t p : Z) : Z * Z :=
  let x := t - p in
  let '(a, b) := scale10 num den x in
  let lo := a / b in
  let r := a mod b in
  let ok_lo := PrimFloat.eqb (of_decimal false lo x) f in
  let ok_hi := PrimFloat.eqb (of_decimal false (lo + 1) x) f in
  let up := if 2 * r <? b then false else if b <? 2 * r then true else Z.odd lo in
  match fuel with
  | O => (lo, x)
  | S fuel' =>
      if ok_lo && ok_hi then (if up then lo + 1 else lo, x)
      else if ok_lo then (lo, x)
      else if ok_hi then (lo + 1, x)
      else shortest_from fuel' f num den t (p + 1)
  end.

(** The layout of [repr]: digits [ds] with the decimal point after the first
    [decpt] of them; an exponent is used below [1e-4] and from [1e16] on, and
    a number without fraction ends in [.0]. *)
Definition format_repr (ds : str) (decpt : Z) : str :=
  let n := Z.of_nat (length ds) in
  if (decpt <=? -4) || (16 <? decpt) then
    let ex := decpt - 1 in
    let mant := match ds with
                | [] => []
                | [c] => [c]
                | c :: tl => c :: u "." ++ tl
                end in
    let exd := digits_of (Z.abs ex) in
    mant ++ u "e" ++ (if ex <? 0 then u "-" else u "+")
         ++ (if Z.abs ex <? 10 then u "0" else []) ++ exd
  else if decpt <=? 0 then
    u "0." ++ repeat 48%N (Z.to_nat (- decpt)) ++ ds
  else if n <=? decpt then
    ds ++ repeat 48%N (Z.to_nat (decpt - n)) ++ u ".0"
  else
    take (Z.to_nat decpt) ds ++ u "." ++ drop (Z.to_nat decpt) ds.

(** Python's [repr(x)] of a float, which is also [str(x)] and what an
    f-string field [{x}] renders. *)
Definition repr (f : float) : str :=
  match Prim2SF f with
  | S754_nan => u "nan"
  | S754_infinity s => if s then u "-inf" else u "inf"
  | S754_zero s => if s then u "-0.0" else u "0.0"
  | S754_finite s m e =>
      let '(num, den) := if 0 <=? e then (Z.pos m * 2 ^ e, 1) else (Z.pos m, 2 ^ (- e)) in
      let t := decimal_point num den in
      let '(d, x) := shortest_from 17 (PrimFloat.abs f) num den t 1 in
      let ds := digits_of d in
      (if s then u "-" else [])
        ++ format_repr (rstrip_zeros ds) (Z.of_nat (length ds) + x)
  end.

(** [x < y] and [x > y] on floats, and the truth value of a float in a
    condition: [bool(x)] is [x != 0.0], so that both zeros are false and a
    NaN is true. *)
Definition lt (x y : float) : bool := PrimFloat.ltb x y.
Definition gt (x y : float) : bool := PrimFloat.ltb y x.
Definition truthy (x : float) : bool := negb (PrimFloat.eqb x zero).

End Float.
Import Float.

(** ** Exceptions *)

(** The exceptions the program can raise.  [PluginUnknownException] is the
    class the file defines; [NameError] is what the interpreter raises when a
    name that is bound nowhere is evaluated. *)
Inductive exn : Type :=
  | PluginUnknownException (msg : str)
  | NameError (name : str)
  | KeyError (key : str)
  | IndexError
  | ValueError (arg : str).

Inductive except (A : Type) : Type :=
  | Return (a : A)
  | Raise (e : exn).
Arguments Return {A} a.
Arguments Raise {A} e.

Definition bind {A B : Type} (m : except A) (k : A -> except B) : except B :=
  match m with
  | Return a => k a
  | Raise e => Raise e
  end.

Notation "'let*' x := m 'in' k" := (bind m (fun x => k))
  (at level 10, x pattern, m at level 100, k at level 200, only parsing).

(** ** The program *)

(** What [subprocess.run(["/sbin/apcaccess", "status"], capture_output=True,
    check=True)] does: it completes with a standard output, or the command
    exits with a non-zero code, or it cannot be run at all.  The standard
    output is taken after [decode('utf-8')]; an output that is not UTF-8 is
    outside the model. *)
Inductive apcaccess : Type :=
  | Completed (stdout : str)
  | CalledProcessError (returncode : Z)
  | OtherError (e : str).

Definition str_of_int (z : Z) : str := u (NilZero.string_of_int (Z.to_int z)).

(** Lines 12-26. *)
Definition getAPCInfo (result : apcaccess) : except (gmap str str) :=
  match result with
  | CalledProcessError returncode =>
      Raise (PluginUnknownException
               (u "Apcaccess command exited with error " ++ str_of_int returncode))
  | OtherError e =>
      Raise (PluginUnknownException (u "Failed to run apcaccess: " ++ e))
  | Completed stdout =>
      Return (foldl (fun (apcdict : gmap str str) line =>
                       if has_colon line then
                         let '(k, v) := split_colon line in
                         <[strip k := strip v]> apcdict
                       else apcdict)
                    ∅ (splitlines stdout))
  end.

(** The match of [[-+]?[0-9]*\.?[0-9]*] at the start of [s], and the rest of
    [s].  Every part of the pattern is optional, so there is always a match,
    and every part is greedy: [opt] is a class followed by [?], [span] a class
    followed by a star. *)
Definition match_number (s : str) : str * str :=
  let '(sg, s1) := opt issign s in
  let '(ip, s2) := span isdigit s1 in
  let '(dt, s3) := opt isdot s2 in
  let '(fp, s4) := span isdigit s3 in
  (sg ++ ip ++ dt ++ fp, s4).

(** [re.findall(r'[-+]?[0-9]*\.?[0-9]*', s)]: the matches from left to right;
    after an empty match the scan moves on by one character, and it ends with
    the empty match at the end of [s]. *)
Fixpoint findall_from (fuel : nat) (s : str) : list str :=
  match fuel with
  | O => []
  | S fuel' =>
      let '(tok, rest) := match_number s in
      match tok, s with
      | [], [] => [[]]
      | [], _ :: s' => [] :: findall_from fuel' s'
      | _ :: _, _ => tok :: findall_from fuel' rest
      end
  end.

Definition findall (s : str) : list str := findall_from (S (length s)) s.

(** Lines 28-35.  The handler of the [try] names the class [exception], which
    is bound nowhere: when the body raises, matching the exception against the
    handler evaluates that name and raises [NameError] in its place, and the
    [raise PluginUnknownException] of the handler's body is never reached. *)
Definition getValue (info : gmap str str) (key : str) (isFloat : bool)
  : except (if isFloat then float else str) :=
  let body : except (if isFloat then float else str) :=
    match isFloat with
    | true =>
        let* v := match info !! key with
                  | Some v => Return v
                  | None => Raise (KeyError key)
                  end in
        let* tok := match findall v with
                    | tok :: _ => Return tok
                    | [] => Raise IndexError
                    end in
        match float_of_str tok with
        | Some f => Return f
        | None => Raise (ValueError tok)
        end
    | false =>
        match info !! key with Some v => Return v | None => Raise (KeyError key) end
    end in
  match body with
  | Return v => Return v
  | Raise _ => Raise (NameError (u "exception"))
  end.

(** The truth value of an option that is [None] or a float. *)
Definition is_true (o : option float) : bool :=
  match o with
  | Some x => truthy x
  | None => false
  end.

(** Lines 37-52; [a and b] does not evaluate [b] when [a] is false. *)
Definition checkValue (val : float) (warn crit : option float)
    (threshold_is_minimum : bool) : Z :=
  if threshold_is_minimum then
    if match crit with Some c => truthy c && lt val c | None => false end then 2
    else if match warn with Some w => truthy w && lt val w | None => false end then 1
    else 0
  else
    if match crit with Some c => truthy c && gt val c | None => false end then 2
    else if match warn with Some w => truthy w && gt val w | None => false end then 1
    else 0.

(** Lines 54-58. *)
Definition stateText (state : Z) : str :=
  if state =? 3 then u "UNKNOWN"
  else if state =? 2 then u "CRITICAL"
  else if state =? 1 then u "WARNING"
  else u "OK".

(** The [Namespace] that [parser.parse_args()] returns: a flag, and six
    options that are [None] when not given and a float otherwise. *)
Record Namespace : Type := {
  online : bool;
  chargewarn : option float;
  chargecrit : option float;
  timewarn : option float;
  timecrit : option float;
  voltwarn : option float;
  voltcrit : option float;
}.

(** Lines 102-108, the part of [parseCommandLine] after [parse_args].  The
    two [raise] statements name [UnknownPluginException], which is bound
    nowhere (the class is [PluginUnknownException]): evaluating the name
    raises [NameError]. *)
Definition parseCommandLine (options : Namespace) : except Namespace :=
  if match chargewarn options with
     | Some w => truthy w && (lt w 0 || gt w 100)
     | None => false
     end
  then Raise (NameError (u "UnknownPluginException"))
  else if match chargecrit options with
          | Some c => truthy c && (lt c 0 || gt c 100)
          | None => false
          end
  then Raise (NameError (u "UnknownPluginException"))
  else Return options.

(** The three variables that the metric blocks of the main block update:
    [status], [text] and [perfdata]. *)
Definition acc : Type := Z * list str * list str.

(** Lines 128-135: "Are we testing battery percentage". *)
Definition check_charge (options : Namespace) (apcinfo : gmap str str)
    (always_ok : bool) (a : acc) : except acc :=
  let '(status, text, perfdata) := a in
  if is_true (chargewarn options) || is_true (chargecrit options) then
    let* charge := getValue apcinfo (u "BCHARGE") true in
    let text := text ++ [u "charge: " ++ repr charge ++ u "%"] in
    let perfdata := perfdata ++ [u "charge=" ++ repr charge ++ u "%"] in
    if negb always_ok then
      let new_status := checkValue charge (chargewarn options) (chargecrit options) true in
      let status := if new_status >? status then new_status else status in
      Return (status, text, perfdata)
    else Return (status, text, perfdata)
  else Return (status, text, perfdata).

(** Lines 137-144: "Are we testing battery runtime". *)
Definition check_runtime (options : Namespace) (apcinfo : gmap str str)
    (always_ok : bool) (a : acc) : except acc :=
  let '(status, text, perfdata) := a in
  if is_true (timewarn options) || is_true (timecrit options) then
    let* runtime := getValue apcinfo (u "TIMELEFT") true in
    let text := text ++ [u "available runtime: " ++ repr runtime ++ u " minutes"] in
    let perfdata := perfdata ++ [u "runtime=" ++ repr runtime] in
    if negb always_ok then
      let new_status := checkValue runtime (timewarn options) (timecrit options) true in
      let status := if new_status >? status then new_status else status in
      Return (status, text, perfdata)
    else Return (status, text, perfdata)
  else Return (status, text, perfdata).

(** Lines 146-153: "Are we testing battery voltage". *)
Definition check_voltage (options : Namespace) (apcinfo : gmap str str)
    (always_ok : bool) (a : acc) : except acc :=
  let '(status, text, perfdata) := a in
  if is_true (voltwarn options) || is_true (voltcrit options) then
    let* volt := getValue apcinfo (u "BATTV") true in
    let text := text ++ [u "voltage: " ++ repr volt ++ u "V"] in
    let perfdata := perfdata ++ [u "voltage=" ++ repr volt] in
    if negb always_ok then
      let new_status := checkValue volt (voltwarn options) (voltcrit options) true in
      let status := if new_status >? status then new_status else status in
      Return (status, text, perfdata)
    else Return (status, text, perfdata)
  else Return (status, text, perfdata).

(** The variables of the main block when the [try] statement ends normally
    (line 153). *)
Record vars : Type := {
  on_batt : bool;
  always_ok : bool;
  status : Z;
  text : list str;
  perfdata : list str;
}.

(** Lines 118-153: the checks made on the status record. *)
Definition run_checks (options : Namespace) (apcinfo : gmap str str) : except vars :=
  (* Are we on battery instead of wall power? *)
  let* tonbatt := getValue apcinfo (u "TONBATT") true in
  let on_batt := gt tonbatt 0 in
  (* if -o specified, return OK regardless of warn/crit thresholds *)
  let always_ok := online options && negb on_batt in
  let status := 0 in
  let text := [if on_batt then u "on battery" else u "online"] in
  let perfdata := [] in
  let* a := check_charge options apcinfo always_ok (status, text, perfdata) in
  let* a := check_runtime options apcinfo always_ok a in
  let* (status, text, perfdata) := check_voltage options apcinfo always_ok a in
  Return {| on_batt := on_batt; always_ok := always_ok;
            status := status; text := text; perfdata := perfdata |}.

(** Lines 111-153: the body of the [try] statement. *)
Definition try_body (args : Namespace) (result : apcaccess) : except vars :=
  (* Parse command line *)
  let* options := parseCommandLine args in
  (* Read status from UPS *)
  let* apcinfo := getAPCInfo result in
  run_checks options apcinfo.

(** How a run ends: the process exits with a status after writing [stdout],
    or an exception that no handler takes ends it with a traceback on the
    standard error (and nothing on the standard output). *)
Inductive outcome : Type :=
  | Exit (stdout : str) (code : Z)
  | Traceback (e : exn).

(** The exit status the operating system sees; the interpreter exits with 1
    after an exception no handler took. *)
Definition exit_status (o : outcome) : Z :=
  match o with
  | Exit _ code => code
  | Traceback _ => 1
  end.

Definition stdout_of (o : outcome) : str :=
  match o with
  | Exit out _ => out
  | Traceback _ => []
  end.

Definition nl : str := [10%N].

(** Line 160: the severity the program reports, with the override for a UPS
    on battery when nothing else was tested. *)
Definition final_status (v : vars) : Z :=
  if on_batt v && (length (text v) =? 1)%nat && negb (always_ok v) then 2 else status v.

(** Lines 163-168: what the three [print] calls write. *)
Definition report (v : vars) : str :=
  u "UPS " ++ stateText (final_status v) ++ u " - " ++ join (u ", ") (text v) ++ u ";"
    ++ match perfdata v with
       | [] => []
       | _ :: _ => u "| " ++ join (u ",") (perfdata v)
       end
    ++ nl.

(** Lines 110-170: the main block.  The handler of the [try] takes
    [PluginUnknownException] only. *)
Definition main (args : Namespace) (result : apcaccess) : outcome :=
  match try_body args result with
  | Raise (PluginUnknownException e) =>
      Exit (u "UPS " ++ stateText 3 ++ u " - " ++ e ++ nl) 3
  | Raise e => Traceback e
  | Return v => Exit (report v) (final_status v)
  end.

(** * The vocabulary of the properties *)

(** ** The threshold evaluator *)

(** [val] is beyond the threshold [x] in the direction of the check: below it
    when the threshold is a minimum, above it otherwise. *)
Definition beyond (threshold_is_minimum : bool) (val x : float) : bool :=
  if threshold_is_minimum then lt val x else gt val x.

(** The threshold [t] is set and [val] is beyond it. *)
Definition set_and_beyond (dir : bool) (val : float) (t : option float) : Prop :=
  exists x, t = Some x /\ beyond dir val x = true.

(** The threshold [t] is set, is not zero, and [val] is beyond it. *)
Definition nonzero_and_beyond (dir : bool) (val : float) (t : option float) : Prop :=
  exists x, t = Some x /\ truthy x = true /\ beyond dir val x = true.

(** The law of the evaluator for a given reading of "crossed": CRITICAL iff
    the critical threshold is crossed, else WARNING iff the warning threshold
    is crossed, else OK. *)
Definition evaluator_law (crossed : bool -> float -> option float -> Prop)
    (val : float) (warn crit : option float) (dir : bool) : Prop :=
  (checkValue val warn crit dir = 2 <-> crossed dir val crit) /\
  (checkValue val warn crit dir = 1 <-> ~ crossed dir val crit /\ crossed dir val warn) /\
  (checkValue val warn crit dir = 0 <-> ~ crossed dir val crit /\ ~ crossed dir val warn).

(** ** Zero thresholds *)

(** A threshold that is absent or equal to zero ([0.0] or [-0.0]). *)
Definition zero_or_absent (o : option float) : Prop :=
  match o with
  | Some x => PrimFloat.eqb x 0 = true
  | None => True
  end.

(** The threshold with a zero taken as not provided. *)
Definition unset_zero (o : option float) : option float :=
  match o with
  | Some x => if PrimFloat.eqb x 0 then None else Some x
  | None => None
  end.

(** The options with every zero threshold taken as not provided. *)
Definition unset_zeros (args : Namespace) : Namespace :=
  {| online := online args;
     chargewarn := unset_zero (chargewarn args);
     chargecrit := unset_zero (chargecrit args);
     timewarn := unset_zero (timewarn args);
     timecrit := unset_zero (timecrit args);
     voltwarn := unset_zero (voltwarn args);
     voltcrit := unset_zero (voltcrit args) |}.

(** ** Scenarios *)

Module Scenario.

Definition flags (o : bool) (cw cc : option float) : Namespace :=
  {| online := o; chargewarn := cw; chargecrit := cc;
     timewarn := None; timecrit := None; voltwarn := None; voltcrit := None |}.

(** No flag at all; [--online] alone; [--charge-warn 50 --charge-crit 20];
    [--charge-warn 50] alone; [--charge-warn 150]. *)
Definition no_flags : Namespace := flags false None None.
Definition online_only : Namespace := flags true None None.
Definition charge_50_20 : Namespace := flags false (Some 50%float) (Some 20%float).
Definition charge_50 : Namespace := flags false (Some 50%float) None.
Definition charge_150 : Namespace := flags false (Some 150%float) None.

(** The status record with the given time on battery and battery charge. *)
Definition record (tonbatt bcharge : string) : gmap str str :=
  <[u "BATTV" := u "13.5 Volts"]>
    (<[u "TIMELEFT" := u "45.0 Minutes"]>
       (<[u "BCHARGE" := u bcharge]>
          (<[u "TONBATT" := u tonbatt]> ∅))).

(** An output of apcaccess that parses to [record tonbatt bcharge]. *)
Definition output (tonbatt bcharge : string) : str :=
  u "TONBATT  : " ++ u tonbatt ++ nl
    ++ u "BCHARGE  : " ++ u bcharge ++ nl
    ++ u "TIMELEFT : 45.0 Minutes" ++ nl
    ++ u "BATTV    : 13.5 Volts" ++ nl.

(** An output of apcaccess without the line of [BCHARGE]. *)
Definition output_without_charge : str :=
  u "TONBATT  : 0 Seconds" ++ nl
    ++ u "TIMELEFT : 45.0 Minutes" ++ nl
    ++ u "BATTV    : 13.5 Volts" ++ nl.

End Scenario.

(** ** Thresholds out of range *)

(** The test of lines 102 and 105: the threshold is given, is not zero, and
    lies outside [0, 100]. *)
Definition out_of_range (o : option float) : bool :=
  match o with
  | Some x => truthy x && (lt x 0 || gt x 100)
  | None => false
  end.

(** ** The three metric blocks as one *)

(** What differs between the three blocks of the main block: the key read,
    the two fragments, and the two options. *)
Record metric : Type := {
  m_key : str;
  m_text : float -> str;
  m_perf : float -> str;
  m_warn : Namespace -> option float;
  m_crit : Namespace -> option float;
}.

Definition charge_metric : metric :=
  {| m_key := u "BCHARGE";
     m_text := fun v => u "charge: " ++ repr v ++ u "%";
     m_perf := fun v => u "charge=" ++ repr v ++ u "%";
     m_warn := chargewarn; m_crit := chargecrit |}.

Definition runtime_metric : metric :=
  {| m_key := u "TIMELEFT";
     m_text := fun v => u "available runtime: " ++ repr v ++ u " minutes";
     m_perf := fun v => u "runtime=" ++ repr v;
     m_warn := timewarn; m_crit := timecrit |}.

Definition voltage_metric : metric :=
  {| m_key := u "BATTV";
     m_text := fun v => u "voltage: " ++ repr v ++ u "V";
     m_perf := fun v => u "voltage=" ++ repr v;
     m_warn := voltwarn; m_crit := voltcrit |}.

(** The guard of a block: [options.<x>warn or options.<x>crit]. *)
Definition requested (m : metric) (options : Namespace) : bool :=
  is_true (m_warn m options) || is_true (m_crit m options).

Definition check_metric (m : metric) (options : Namespace) (apcinfo : gmap str str)
    (always_ok : bool) (a : acc) : except acc :=
  let '(status, text, perfdata) := a in
  if requested m options then
    let* val := getValue apcinfo (m_key m) true in
    let text := text ++ [m_text m val] in
    let perfdata := perfdata ++ [m_perf m val] in
    if negb always_ok then
      let new_status := checkValue val (m_warn m options) (m_crit m options) true in
      let status := if new_status >? status then new_status else status in
      Return (status, text, perfdata)
    else Return (status, text, perfdata)
  else Return (status, text, perfdata).

(** ** The run as a fold *)

(** The metrics in the order of the main block. *)
Definition metrics : list metric := [charge_metric; runtime_metric; voltage_metric].

(** The value read for a requested metric, when it can be read. *)
Definition reading (options : Namespace) (apcinfo : gmap str str) (m : metric)
  : list (metric * float) :=
  if requested m options then
    match getValue apcinfo (m_key m) true with
    | Return val => [(m, val)]
    | Raise _ => []
    end
  else [].

Definition readings (options : Namespace) (apcinfo : gmap str str) (ms : list metric)
  : list (metric * float) :=
  flat_map (reading options apcinfo) ms.

(** A metric that is not requested, or whose value can be read. *)
Definition readable (options : Namespace) (apcinfo : gmap str str) (m : metric) : bool :=
  negb (requested m options)
  || match getValue apcinfo (m_key m) true with Return _ => true | Raise _ => false end.

(** The results of [checkValue] that are scored: none when the run is
    always OK. *)
Definition severities (options : Namespace) (always_ok : bool)
    (rs : list (metric * float)) : list Z :=
  if always_ok then []
  else map (fun r => checkValue r.2 (m_warn r.1 options) (m_crit r.1 options) true) rs.

(** The running status: replaced by a new result only when that is greater. *)
Definition update (status new_status : Z) : Z :=
  if new_status >? status then new_status else status.

Definition aggregate_from (status : Z) (l : list Z) : Z := foldl update status l.
Definition aggregate (l : list Z) : Z := aggregate_from 0 l.

Definition text_of (r : metric * float) : str := m_text r.1 r.2.
Definition perf_of (r : metric * float) : str := m_perf r.1 r.2.

Fixpoint check_all (ms : list metric) (options : Namespace) (apcinfo : gmap str str)
    (always_ok : bool) (a : acc) : except acc :=
  match ms with
  | [] => Return a
  | m :: ms' =>
      let* a := check_metric m options apcinfo always_ok a in
      check_all ms' options apcinfo always_ok a
  end.

(** ** On battery with no check requested *)

(** None of the three metrics is requested. *)
Definition no_check_requested (args : Namespace) : Prop :=
  requested charge_metric args = false /\
  requested runtime_metric args = false /\
  requested voltage_metric args = false.

(** ** The run in closed form *)

(** The variables at line 153, from the options, the status record and the
    value of [TONBATT]. *)
Definition vars_of (args : Namespace) (apcinfo : gmap str str) (tonbatt : float) : vars :=
  let on_batt := gt tonbatt 0 in
  let always_ok := online args && negb on_batt in
  {| on_batt := on_batt; always_ok := always_ok;
     status := aggregate (severities args always_ok (readings args apcinfo metrics));
     text := (if on_batt then u "on battery" else u "online")
               :: map text_of (readings args apcinfo metrics);
     perfdata := map perf_of (readings args apcinfo metrics) |}.

(** ** Suppression by the online flag *)

(** The options with the online flag set to [b]. *)
Definition set_online (b : bool) (args : Namespace) : Namespace :=
  {| online := b;
     chargewarn := chargewarn args; chargecrit := chargecrit args;
     timewarn := timewarn args; timecrit := timecrit args;
     voltwarn := voltwarn args; voltcrit := voltcrit args |}.

(** ** Aggregation *)

(** The options with the thresholds of one metric replaced. *)
Definition with_charge (w c : option float) (args : Namespace) : Namespace :=
  {| online := online args;
     chargewarn := w; chargecrit := c;
     timewarn := timewarn args; timecrit := timecrit args;
     voltwarn := voltwarn args; voltcrit := voltcrit args |}.

Definition with_runtime (w c : option float) (args : Namespace) : Namespace :=
  {| online := online args;
     chargewarn := chargewarn args; chargecrit := chargecrit args;
     timewarn := w; timecrit := c;
     voltwarn := voltwarn args; voltcrit := voltcrit args |}.

Definition with_voltage (w c : option float) (args : Namespace) : Namespace :=
  {| online := online args;
     chargewarn := chargewarn args; chargecrit := chargecrit args;
     timewarn := timewarn args; timecrit := timecrit args;
     voltwarn := w; voltcrit := c |}.

(** [adds_metric args args']: the options [args'] request one metric more
    than [args] and are the same otherwise. *)
Inductive adds_metric : Namespace -> Namespace -> Prop :=
  | adds_charge args w c :
      requested charge_metric args = false ->
      is_true w || is_true c = true ->
      adds_metric args (with_charge w c args)
  | adds_runtime args w c :
      requested runtime_metric args = false ->
      is_true w || is_true c = true ->
      adds_metric args (with_runtime w c args)
  | adds_voltage args w c :
      requested voltage_metric args = false ->
      is_true w || is_true c = true ->
      adds_metric args (with_voltage w c args).

(** The severities scored for one metric. *)
Definition scores (args : Namespace) (apcinfo : gmap str str) (ok : bool) (m : metric)
  : list Z :=
  severities args ok (reading args apcinfo m).

(** ** The report *)

(** A string without a line boundary. *)
Definition one_line (s : str) : Prop := Forall (fun c => islinebreak c = false) s.

(** The line the program writes, without its final newline. *)
Definition report_line (v : vars) : str :=
  u "UPS " ++ stateText (final_status v) ++ u " - " ++ join (u ", ") (text v) ++ u ";"
    ++ match perfdata v with
       | [] => []
       | _ :: _ => u "| " ++ join (u ",") (perfdata v)
       end.

(** ** Parser and extractor round trip *)

(** A line [<key>:<pad><num> <unit>] of the status text. *)
Record entry : Type := {
  e_key : str;
  e_pad : str;
  e_num : str;
  e_unit : str;
}.

Definition value_of (e : entry) : str := e_pad e ++ e_num e ++ u " " ++ e_unit e.
Definition line_of (e : entry) : str := e_key e ++ colon :: value_of e.

(** A signed decimal token: an optional sign, digits, an optional decimal
    point, digits. *)
Definition decimal_token (s : str) : Prop :=
  exists sg ip dt fp,
    s = sg ++ ip ++ dt ++ fp /\
    (sg = [] \/ sg = u "+" \/ sg = u "-") /\
    Forall (fun c => isdigit c = true) ip /\
    (dt = [] \/ dt = u ".") /\
    Forall (fun c => isdigit c = true) fp.

(** The key has no colon, the padding before the number is white space, and
    the number is a signed decimal token. *)
Definition well_formed (e : entry) : Prop :=
  has_colon (e_key e) = false /\
  Forall (fun c => isspace c = true) (e_pad e) /\
  decimal_token (e_num e).

(** The key under which the parser stores the line. *)
Definition stored_key (e : entry) : str := strip (e_key e).

(** The body of the loop of [getAPCInfo]. *)
Definition store (apcdict : gmap str str) (line : str) : gmap str str :=
  if has_colon line then
    let '(k, v) := split_colon line in <[strip k := strip v]> apcdict
  else apcdict.

(** The next character, if any, is not in the class [p]. *)
Definition head_fails (p : char -> bool) (s : str) : Prop :=
  match s with
  | c :: _ => p c = false
  | [] => True
  end.

(** The four lines of [Scenario.output "0 Seconds" "100.0 Percent"]. *)
Definition scenario_entries : list entry :=
  [ {| e_key := u "TONBATT  "; e_pad := u " "; e_num := u "0"; e_unit := u "Seconds" |};
    {| e_key := u "BCHARGE  "; e_pad := u " "; e_num := u "100.0"; e_unit := u "Percent" |};
    {| e_key := u "TIMELEFT "; e_pad := u " "; e_num := u "45.0"; e_unit := u "Minutes" |};
    {| e_key := u "BATTV    "; e_pad := u " "; e_num := u "13.5"; e_unit := u "Volts" |} ].

(** ** Outcomes of a run *)

(** The options pass the checks of [parseCommandLine]. *)
Definition accepted (args : Namespace) : bool :=
  negb (out_of_range (chargewarn args)) && negb (out_of_range (chargecrit args)).

(** apcaccess did not complete. *)
Definition failed (result : apcaccess) : bool :=
  match result with
  | Completed _ => false
  | CalledProcessError _ | OtherError _ => true
  end.

(** The message of the [PluginUnknownException] raised by [getAPCInfo]. *)
Definition failure_message (result : apcaccess) : str :=
  match result with
  | Completed _ => []
  | CalledProcessError returncode =>
      u "Apcaccess command exited with error " ++ str_of_int returncode
  | OtherError e => u "Failed to run apcaccess: " ++ e
  end.

(** [TONBATT] and every requested metric can be read from the record. *)
Definition all_readable (args : Namespace) (apcinfo : gmap str str) : bool :=
  match getValue apcinfo (u "TONBATT") true with
  | Return _ => forallb (readable args apcinfo) metrics
  | Raise _ => false
  end.

(** No metric is requested, as a boolean. *)
Definition nothing_requested (args : Namespace) : bool :=
  forallb (fun m => negb (requested m args)) metrics.

(** The number of requested metrics. *)
Definition requested_count (args : Namespace) : nat :=
  length (filter (fun m => requested m args = true) metrics).

(** ** The parser *)

(** The key and the value a line with a colon is stored under. *)
Definition line_key (line : str) : str := strip (split_colon line).1.
Definition line_value (line : str) : str := strip (split_colon line).2.

(** The text made of the given lines, each ended by [eol]. *)
Definition terminated (eol : str) (lines : list str) : str :=
  concat (map (fun l => l ++ eol) lines).

(** The first character of [v] can start a match of the regular expression
    that is not empty: a sign, a digit or a point. *)
Definition starts_number (v : str) : bool :=
  match v with
  | c :: _ => issign c || isdigit c || isdot c
  | [] => false
  end.

(** The keys a run reads: [TONBATT] and the keys of the requested metrics. *)
Definition needed_keys (args : Namespace) : list str :=
  u "TONBATT" :: map m_key (filter (fun m => requested m args = true) metrics).

(** * Properties *)

(** ** The threshold evaluator *)

Lemma nonzero_and_beyond_spec dir val t :
  nonzero_and_beyond dir val t <->
  match t with Some x => truthy x && beyond dir val x | None => false end = true.
Proof.
  unfold nonzero_and_beyond. destruct t as [x|]; split.
  - intros (y & [= <-] & -> & ->). reflexivity.
  - intros [H1 H2]%andb_true_iff. eauto.
  - intros (y & [=] & _).
  - discriminate.
Qed.

Lemma checkValue_cases val warn crit dir :
  checkValue val warn crit dir =
  if match crit with Some c => truthy c && beyond dir val c | None => false end then 2
  else if match warn with Some w => truthy w && beyond dir val w | None => false end then 1
  else 0.
Proof. destruct dir; reflexivity. Qed.

(** C1, as amended: for every value, thresholds and direction, [checkValue]
    returns CRITICAL (2) iff crit is set, is not zero, and the value is beyond
    it ([<] for a minimum, [>] otherwise); else WARNING (1) iff warn is set,
    is not zero, and the value is beyond it; else OK (0). *)
Theorem checkValue_law val warn crit dir :
  evaluator_law nonzero_and_beyond val warn crit dir.
Proof.
  unfold evaluator_law. rewrite !nonzero_and_beyond_spec, checkValue_cases.
  destruct (match crit with Some c => truthy c && beyond dir val c | None => false end),
    (match warn with Some w => truthy w && beyond dir val w | None => false end);
    repeat split; try discriminate; try tauto; intros [? ?]; congruence.
Qed.

(** C1 as the specification states it fails when a threshold is zero: with
    crit = 0, warn = 50 and the value -1 the critical threshold is set and the
    value is below it, yet the result is WARNING. *)
Lemma checkValue_law_zero_crit_fails :
  ~ evaluator_law set_and_beyond (-1)%float (Some 50%float) (Some 0%float) true.
Proof.
  intros [H _].
  assert (Hc : checkValue (-1)%float (Some 50%float) (Some 0%float) true = 1)
    by (vm_compute; reflexivity).
  rewrite Hc in H. destruct H as [_ H].
  discriminate H. exists 0%float. split; [reflexivity | vm_compute; reflexivity].
Qed.

(** ** Zero thresholds *)

Lemma zero_or_absent_is_true o : zero_or_absent o <-> is_true o = false.
Proof.
  destruct o as [x|]; simpl; unfold truthy; [|tauto].
  change zero with 0%float. destruct (PrimFloat.eqb x 0); simpl; split; congruence.
Qed.

Lemma guard_unset_zero (P : float -> bool) o :
  match unset_zero o with Some x => truthy x && P x | None => false end =
  match o with Some x => truthy x && P x | None => false end.
Proof.
  destruct o as [x|]; simpl; [|reflexivity]. unfold truthy. change zero with 0%float.
  destruct (PrimFloat.eqb x 0) eqn:E; simpl; [reflexivity|]. now rewrite E.
Qed.

Lemma is_true_unset_zero o : is_true (unset_zero o) = is_true o.
Proof.
  pose proof (guard_unset_zero (fun _ => true) o) as H.
  destruct o as [x|]; simpl in *; [|reflexivity].
  rewrite andb_true_r in H. rewrite <- H.
  destruct (PrimFloat.eqb x 0); simpl; [reflexivity | now rewrite andb_true_r].
Qed.

Lemma checkValue_unset_zero val warn crit dir :
  checkValue val (unset_zero warn) (unset_zero crit) dir = checkValue val warn crit dir.
Proof.
  rewrite !checkValue_cases.
  now rewrite (guard_unset_zero (beyond dir val) crit), (guard_unset_zero (beyond dir val) warn).
Qed.

Lemma parseCommandLine_unset_zeros args :
  parseCommandLine (unset_zeros args) =
  match parseCommandLine args with
  | Return _ => Return (unset_zeros args)
  | Raise e => Raise e
  end.
Proof.
  unfold parseCommandLine. cbn [chargewarn chargecrit unset_zeros].
  rewrite (guard_unset_zero (fun w => lt w 0 || gt w 100) (chargewarn args)).
  rewrite (guard_unset_zero (fun c => lt c 0 || gt c 100) (chargecrit args)).
  repeat match goal with |- context [if ?b then _ else _] => destruct b end; reflexivity.
Qed.

Lemma parseCommandLine_Return args options :
  parseCommandLine args = Return options -> options = args.
Proof.
  unfold parseCommandLine.
  repeat match goal with |- context [if ?b then _ else _] => destruct b end; congruence.
Qed.

Lemma check_charge_unset_zeros options apcinfo ok a :
  check_charge (unset_zeros options) apcinfo ok a = check_charge options apcinfo ok a.
Proof.
  unfold check_charge. destruct a as [[st tx] pf]. cbn [chargewarn chargecrit unset_zeros].
  rewrite !is_true_unset_zero.
  destruct (getValue apcinfo (u "BCHARGE") true) as [val|e]; cbn [bind]; [|reflexivity].
  now rewrite checkValue_unset_zero.
Qed.

Lemma check_runtime_unset_zeros options apcinfo ok a :
  check_runtime (unset_zeros options) apcinfo ok a = check_runtime options apcinfo ok a.
Proof.
  unfold check_runtime. destruct a as [[st tx] pf]. cbn [timewarn timecrit unset_zeros].
  rewrite !is_true_unset_zero.
  destruct (getValue apcinfo (u "TIMELEFT") true) as [val|e]; cbn [bind]; [|reflexivity].
  now rewrite checkValue_unset_zero.
Qed.

Lemma check_voltage_unset_zeros options apcinfo ok a :
  check_voltage (unset_zeros options) apcinfo ok a = check_voltage options apcinfo ok a.
Proof.
  unfold check_voltage. destruct a as [[st tx] pf]. cbn [voltwarn voltcrit unset_zeros].
  rewrite !is_true_unset_zero.
  destruct (getValue apcinfo (u "BATTV") true) as [val|e]; cbn [bind]; [|reflexivity].
  now rewrite checkValue_unset_zero.
Qed.

Lemma run_checks_unset_zeros options apcinfo :
  run_checks (unset_zeros options) apcinfo = run_checks options apcinfo.
Proof.
  unfold run_checks. cbn [online unset_zeros].
  destruct (getValue apcinfo (u "TONBATT") true) as [tonbatt|e]; [|reflexivity].
  cbn [bind].
  rewrite check_charge_unset_zeros.
  destruct (check_charge options apcinfo _ _) as [a|e]; [|reflexivity]. cbn [bind].
  rewrite check_runtime_unset_zeros.
  destruct (check_runtime options apcinfo _ _) as [a'|e]; [|reflexivity]. cbn [bind].
  now rewrite check_voltage_unset_zeros.
Qed.

Lemma main_unset_zeros args result :
  main (unset_zeros args) result = main args result.
Proof.
  unfold main, try_body. rewrite parseCommandLine_unset_zeros.
  destruct (parseCommandLine args) as [options|e] eqn:E; [|reflexivity].
  apply parseCommandLine_Return in E as ->. cbn [bind].
  destruct (getAPCInfo result) as [apcinfo|e]; [|reflexivity]. cbn [bind].
  now rewrite run_checks_unset_zeros.
Qed.

Lemma check_charge_not_requested options apcinfo ok a :
  zero_or_absent (chargewarn options) -> zero_or_absent (chargecrit options) ->
  check_charge options apcinfo ok a = Return a.
Proof.
  intros Hw%zero_or_absent_is_true Hc%zero_or_absent_is_true.
  unfold check_charge. destruct a as [[st tx] pf]. now rewrite Hw, Hc.
Qed.

Lemma check_runtime_not_requested options apcinfo ok a :
  zero_or_absent (timewarn options) -> zero_or_absent (timecrit options) ->
  check_runtime options apcinfo ok a = Return a.
Proof.
  intros Hw%zero_or_absent_is_true Hc%zero_or_absent_is_true.
  unfold check_runtime. destruct a as [[st tx] pf]. now rewrite Hw, Hc.
Qed.

Lemma check_voltage_not_requested options apcinfo ok a :
  zero_or_absent (voltwarn options) -> zero_or_absent (voltcrit options) ->
  check_voltage options apcinfo ok a = Return a.
Proof.
  intros Hw%zero_or_absent_is_true Hc%zero_or_absent_is_true.
  unfold check_voltage. destruct a as [[st tx] pf]. now rewrite Hw, Hc.
Qed.

(** C10: a warn or crit threshold given as 0 behaves as if it were not given.
    [checkValue] returns what it returns without that threshold, so that no
    WARNING or CRITICAL comes from it; the whole run is the run with the zero
    thresholds left out; and a metric whose two thresholds are zero or absent
    is skipped: its block leaves [status], [text] and [perfdata] as they were
    and does not read the status record. *)
Theorem zero_threshold_as_absent :
  (forall val warn crit dir,
      checkValue val (Some 0%float) crit dir = checkValue val None crit dir /\
      checkValue val warn (Some 0%float) dir = checkValue val warn None dir /\
      checkValue val (Some 0%float) (Some 0%float) dir = 0) /\
  (forall val warn crit dir,
      checkValue val warn crit dir = checkValue val (unset_zero warn) (unset_zero crit) dir) /\
  (forall args result, main args result = main (unset_zeros args) result) /\
  (forall options apcinfo ok a,
      (zero_or_absent (chargewarn options) -> zero_or_absent (chargecrit options) ->
       check_charge options apcinfo ok a = Return a) /\
      (zero_or_absent (timewarn options) -> zero_or_absent (timecrit options) ->
       check_runtime options apcinfo ok a = Return a) /\
      (zero_or_absent (voltwarn options) -> zero_or_absent (voltcrit options) ->
       check_voltage options apcinfo ok a = Return a)).
Proof.
  split; [|split; [|split]].
  - intros. rewrite !checkValue_cases. repeat split; reflexivity.
  - intros. now rewrite checkValue_unset_zero.
  - intros. now rewrite main_unset_zeros.
  - intros. split; [|split].
    + apply check_charge_not_requested.
    + apply check_runtime_not_requested.
    + apply check_voltage_not_requested.
Qed.

(** ** Failed extraction *)

Lemma getValue_raises_NameError info key isFloat e :
  getValue info key isFloat = Raise e -> e = NameError (u "exception").
Proof.
  unfold getValue. destruct isFloat.
  - destruct (info !! key) as [v|]; cbn [bind]; [|congruence].
    destruct (findall v) as [|tok ?]; cbn [bind]; [congruence|].
    destruct (float_of_str tok); congruence.
  - destruct (info !! key); congruence.
Qed.

Lemma getValue_absent info key isFloat :
  info !! key = None -> getValue info key isFloat = Raise (NameError (u "exception")).
Proof. unfold getValue. intros ->. destruct isFloat; reflexivity. Qed.

Lemma findall_head s : exists l, findall s = (match_number s).1 :: l.
Proof.
  unfold findall. cbn [findall_from].
  destruct (match_number s) as [tok rest]. cbn [fst].
  destruct tok as [|c tok]; [destruct s|]; eauto.
Qed.

Lemma getValue_float info key v :
  info !! key = Some v ->
  getValue info key true =
  match float_of_str (match_number v).1 with
  | Some f => Return f
  | None => Raise (NameError (u "exception"))
  end.
Proof.
  unfold getValue. intros ->. cbn [bind].
  destruct (findall_head v) as [l ->]. cbn [bind].
  destruct (float_of_str _); reflexivity.
Qed.

Lemma check_charge_raises options apcinfo ok a e :
  check_charge options apcinfo ok a = Raise e -> e = NameError (u "exception").
Proof.
  unfold check_charge. destruct a as [[st tx] pf].
  destruct (_ || _); [|congruence].
  destruct (getValue apcinfo (u "BCHARGE") true) eqn:E; cbn [bind].
  - destruct (negb ok); congruence.
  - intros [= <-]. exact (getValue_raises_NameError _ _ true _ E).
Qed.

Lemma check_runtime_raises options apcinfo ok a e :
  check_runtime options apcinfo ok a = Raise e -> e = NameError (u "exception").
Proof.
  unfold check_runtime. destruct a as [[st tx] pf].
  destruct (_ || _); [|congruence].
  destruct (getValue apcinfo (u "TIMELEFT") true) eqn:E; cbn [bind].
  - destruct (negb ok); congruence.
  - intros [= <-]. exact (getValue_raises_NameError _ _ true _ E).
Qed.

Lemma check_voltage_raises options apcinfo ok a e :
  check_voltage options apcinfo ok a = Raise e -> e = NameError (u "exception").
Proof.
  unfold check_voltage. destruct a as [[st tx] pf].
  destruct (_ || _); [|congruence].
  destruct (getValue apcinfo (u "BATTV") true) eqn:E; cbn [bind].
  - destruct (negb ok); congruence.
  - intros [= <-]. exact (getValue_raises_NameError _ _ true _ E).
Qed.

(** Whenever one of the extractions of a run fails, the run ends with the
    [NameError] of the handler in [getValue]. *)
Lemma run_checks_raises options apcinfo e :
  run_checks options apcinfo = Raise e -> e = NameError (u "exception").
Proof.
  unfold run_checks.
  destruct (getValue apcinfo (u "TONBATT") true) as [tonbatt|e0] eqn:E0; cbn [bind];
    [|intros [= <-]; exact (getValue_raises_NameError _ _ true _ E0)].
  destruct (check_charge _ _ _ _) as [a1|e1] eqn:E1; cbn [bind];
    [|intros [= <-]; eapply check_charge_raises, E1].
  destruct (check_runtime _ _ _ _) as [a2|e2] eqn:E2; cbn [bind];
    [|intros [= <-]; eapply check_runtime_raises, E2].
  destruct (check_voltage _ _ _ _) as [[[st tx] pf]|e3] eqn:E3; cbn [bind];
    [discriminate|intros [= <-]; eapply check_voltage_raises, E3].
Qed.

Lemma extraction_failure_traceback args result apcinfo e :
  parseCommandLine args = Return args ->
  getAPCInfo result = Return apcinfo ->
  run_checks args apcinfo = Raise e ->
  main args result = Traceback (NameError (u "exception")).
Proof.
  intros Hp Hi Hr. unfold main, try_body. rewrite Hp. cbn [bind]. rewrite Hi. cbn [bind].
  rewrite Hr. now rewrite (run_checks_raises _ _ _ Hr).
Qed.

(** C2 fails on the code.  With [--charge-warn 50] and a status record
    without [BCHARGE], the run does not print [UPS UNKNOWN - ...] and does not
    exit with 3: the [NameError] raised by the handler of [getValue] is taken
    by no handler, nothing is written to the standard output and the exit
    status is 1.  The same happens when the value of the key has no leading
    number. *)
Theorem missing_BCHARGE_traceback :
  main Scenario.charge_50 (Completed Scenario.output_without_charge)
    = Traceback (NameError (u "exception")) /\
  exit_status (main Scenario.charge_50 (Completed Scenario.output_without_charge)) = 1 /\
  stdout_of (main Scenario.charge_50 (Completed Scenario.output_without_charge)) = [] /\
  main Scenario.charge_50 (Completed (Scenario.output "0 Seconds" "N/A"))
    = Traceback (NameError (u "exception")).
Proof. repeat split; vm_compute; reflexivity. Qed.

(** ** Thresholds out of range *)

Lemma out_of_range_traceback args result :
  out_of_range (chargewarn args) || out_of_range (chargecrit args) = true ->
  main args result = Traceback (NameError (u "UnknownPluginException")).
Proof.
  intros H. unfold main, try_body, parseCommandLine.
  fold (out_of_range (chargewarn args)). fold (out_of_range (chargecrit args)).
  destruct (out_of_range (chargewarn args)); [reflexivity|].
  destruct (out_of_range (chargecrit args)); [reflexivity|discriminate].
Qed.

(** C8 fails on the code.  With [--charge-warn 150] the run ends before the
    status is read, whatever apcaccess would have answered, but not through
    the report of [UPS UNKNOWN]: the [raise] names a class that does not
    exist, the [NameError] is taken by no handler, nothing is written to the
    standard output and the exit status is 1. *)
Theorem charge_warn_150_traceback :
  forall result,
    main Scenario.charge_150 result = Traceback (NameError (u "UnknownPluginException")) /\
    exit_status (main Scenario.charge_150 result) = 1 /\
    stdout_of (main Scenario.charge_150 result) = [].
Proof.
  intros result.
  assert (H : main Scenario.charge_150 result
              = Traceback (NameError (u "UnknownPluginException")))
    by (apply out_of_range_traceback; vm_compute; reflexivity).
  rewrite H. repeat split; reflexivity.
Qed.

(** ** The three metric blocks as one *)

Lemma check_charge_metric options apcinfo ok a :
  check_charge options apcinfo ok a = check_metric charge_metric options apcinfo ok a.
Proof. destruct a as [[st tx] pf]. reflexivity. Qed.

Lemma check_runtime_metric options apcinfo ok a :
  check_runtime options apcinfo ok a = check_metric runtime_metric options apcinfo ok a.
Proof. destruct a as [[st tx] pf]. reflexivity. Qed.

Lemma check_voltage_metric options apcinfo ok a :
  check_voltage options apcinfo ok a = check_metric voltage_metric options apcinfo ok a.
Proof. destruct a as [[st tx] pf]. reflexivity. Qed.

(** The update of [status] is a maximum. *)
Lemma replace_if_greater (status new_status : Z) :
  (if new_status >? status then new_status else status) = Z.max status new_status.
Proof. destruct (Z.gtb_spec new_status status); lia. Qed.

Lemma checkValue_range val warn crit dir :
  0 <= checkValue val warn crit dir <= 2.
Proof.
  rewrite checkValue_cases.
  repeat match goal with |- context [if ?b then _ else _] => destruct b end; lia.
Qed.

Lemma run_checks_metrics options apcinfo :
  run_checks options apcinfo =
  (let* tonbatt := getValue apcinfo (u "TONBATT") true in
   let on_batt := gt tonbatt 0 in
   let always_ok := online options && negb on_batt in
   let* a := check_metric charge_metric options apcinfo always_ok
               (0, [if on_batt then u "on battery" else u "online"], []) in
   let* a := check_metric runtime_metric options apcinfo always_ok a in
   let* a := check_metric voltage_metric options apcinfo always_ok a in
   Return {| on_batt := on_batt; always_ok := always_ok;
             status := a.1.1; text := a.1.2; perfdata := a.2 |}).
Proof.
  unfold run_checks.
  destruct (getValue apcinfo (u "TONBATT") true) as [tonbatt|e]; cbn [bind]; [|reflexivity].
  rewrite check_charge_metric.
  destruct (check_metric charge_metric _ _ _ _) as [a1|e]; cbn [bind]; [|reflexivity].
  rewrite check_runtime_metric.
  destruct (check_metric runtime_metric _ _ _ _) as [a2|e]; cbn [bind]; [|reflexivity].
  rewrite check_voltage_metric.
  destruct (check_metric voltage_metric _ _ _ _) as [[[st tx] pf]|e]; reflexivity.
Qed.

(** ** The run as a fold *)

Lemma aggregate_from_app status l1 l2 :
  aggregate_from status (l1 ++ l2) = aggregate_from (aggregate_from status l1) l2.
Proof. apply foldl_app. Qed.

Lemma severities_app options ok rs1 rs2 :
  severities options ok (rs1 ++ rs2) = severities options ok rs1 ++ severities options ok rs2.
Proof. unfold severities. destruct ok; [reflexivity | apply map_app]. Qed.

Lemma check_all_eq ms options apcinfo ok st tx pf :
  check_all ms options apcinfo ok (st, tx, pf) =
  if forallb (readable options apcinfo) ms then
    Return (aggregate_from st (severities options ok (readings options apcinfo ms)),
            tx ++ map text_of (readings options apcinfo ms),
            pf ++ map perf_of (readings options apcinfo ms))
  else Raise (NameError (u "exception")).
Proof.
  revert st tx pf. induction ms as [|m ms IH]; intros st tx pf.
  - cbn. rewrite !app_nil_r. destruct ok; reflexivity.
  - cbn [check_all forallb readings flat_map]. fold (readings options apcinfo ms).
    unfold check_metric, readable at 1, reading at 1 2 3.
    destruct (requested m options); cbn [negb orb].
    + destruct (getValue apcinfo (m_key m) true) as [val|e] eqn:E; cbn [bind andb].
      * rewrite severities_app, aggregate_from_app, !map_app, !app_assoc.
        destruct ok; cbn [negb bind]; cbv zeta; rewrite IH; reflexivity.
      * now rewrite (getValue_raises_NameError _ _ true _ E).
    + cbn [bind andb app]. apply IH.
Qed.

Lemma run_checks_check_all options apcinfo :
  run_checks options apcinfo =
  (let* tonbatt := getValue apcinfo (u "TONBATT") true in
   let on_batt := gt tonbatt 0 in
   let always_ok := online options && negb on_batt in
   let* a := check_all metrics options apcinfo always_ok
               (0, [if on_batt then u "on battery" else u "online"], []) in
   Return {| on_batt := on_batt; always_ok := always_ok;
             status := a.1.1; text := a.1.2; perfdata := a.2 |}).
Proof.
  rewrite run_checks_metrics.
  destruct (getValue apcinfo (u "TONBATT") true) as [tonbatt|e]; cbn [bind]; [|reflexivity].
  cbn [metrics check_all].
  destruct (check_metric charge_metric _ _ _ _) as [a1|e]; cbn [bind]; [|reflexivity].
  destruct (check_metric runtime_metric _ _ _ _) as [a2|e]; cbn [bind]; [|reflexivity].
  destruct (check_metric voltage_metric _ _ _ _) as [a3|e]; reflexivity.
Qed.

(** The whole of lines 118-153 in closed form. *)
Lemma run_checks_eq options apcinfo :
  run_checks options apcinfo =
  match getValue apcinfo (u "TONBATT") true with
  | Raise e => Raise e
  | Return tonbatt =>
      let on_batt := gt tonbatt 0 in
      let always_ok := online options && negb on_batt in
      if forallb (readable options apcinfo) metrics then
        Return {| on_batt := on_batt; always_ok := always_ok;
                  status := aggregate
                              (severities options always_ok (readings options apcinfo metrics));
                  text := (if on_batt then u "on battery" else u "online")
                            :: map text_of (readings options apcinfo metrics);
                  perfdata := map perf_of (readings options apcinfo metrics) |}
      else Raise (NameError (u "exception"))
  end.
Proof.
  rewrite run_checks_check_all.
  destruct (getValue apcinfo (u "TONBATT") true) as [tonbatt|e]; cbn [bind]; [|reflexivity].
  rewrite check_all_eq.
  destruct (forallb _ _); reflexivity.
Qed.

(** ** On battery with no check requested *)

Lemma parseCommandLine_in_range args :
  out_of_range (chargewarn args) = false -> out_of_range (chargecrit args) = false ->
  parseCommandLine args = Return args.
Proof.
  intros Hw Hc. unfold parseCommandLine.
  fold (out_of_range (chargewarn args)). fold (out_of_range (chargecrit args)).
  now rewrite Hw, Hc.
Qed.

Lemma not_true_in_range o : is_true o = false -> out_of_range o = false.
Proof. destruct o as [x|]; simpl; [|reflexivity]. now intros ->. Qed.

Lemma parseCommandLine_no_charge args :
  requested charge_metric args = false -> parseCommandLine args = Return args.
Proof.
  unfold requested. cbn [m_warn m_crit charge_metric].
  intros [Hw Hc]%orb_false_iff.
  apply parseCommandLine_in_range; now apply not_true_in_range.
Qed.

Lemma readings_none args apcinfo :
  no_check_requested args ->
  readings args apcinfo metrics = [] /\ forallb (readable args apcinfo) metrics = true.
Proof.
  intros (Hc & Hr & Hv).
  unfold readings, metrics, readable, reading. cbn [flat_map forallb].
  now rewrite Hc, Hr, Hv.
Qed.

(** The run of a UPS on battery with no check requested, whatever the online
    flag: [always_ok] is false, the override of line 160 applies. *)
Lemma on_battery_alone args result apcinfo tonbatt :
  getAPCInfo result = Return apcinfo ->
  getValue apcinfo (u "TONBATT") true = Return tonbatt ->
  gt tonbatt 0 = true ->
  no_check_requested args ->
  try_body args result
    = Return {| on_batt := true; always_ok := false; status := 0;
                text := [u "on battery"]; perfdata := [] |} /\
  main args result = Exit (u "UPS CRITICAL - on battery;" ++ nl) 2.
Proof.
  intros Hi Ht Hgt Hno.
  assert (Hbody : try_body args result
                  = Return {| on_batt := true; always_ok := false; status := 0;
                              text := [u "on battery"]; perfdata := [] |}).
  { unfold try_body. rewrite (parseCommandLine_no_charge args (proj1 Hno)). cbn [bind].
    rewrite Hi. cbn [bind]. rewrite run_checks_eq, Ht. cbv zeta. rewrite Hgt.
    destruct (readings_none args apcinfo Hno) as [-> ->].
    cbn [negb]. rewrite andb_false_r. reflexivity. }
  split; [exact Hbody|].
  unfold main. rewrite Hbody. vm_compute. reflexivity.
Qed.

(** C3: when the UPS is on battery (TONBATT > 0), no metric check is requested
    and the online flag is not set, the only text fragment is the power state,
    there is no perfdata, and the program prints [UPS CRITICAL - on battery;]
    and exits with status 2. *)
Theorem on_battery_no_checks_critical args result apcinfo tonbatt :
  getAPCInfo result = Return apcinfo ->
  getValue apcinfo (u "TONBATT") true = Return tonbatt ->
  gt tonbatt 0 = true ->
  no_check_requested args ->
  online args = false ->
  (exists v, try_body args result = Return v /\
             text v = [u "on battery"] /\ perfdata v = [] /\ final_status v = 2) /\
  main args result = Exit (u "UPS CRITICAL - on battery;" ++ nl) 2.
Proof.
  intros Hi Ht Hgt Hno _.
  destruct (on_battery_alone args result apcinfo tonbatt Hi Ht Hgt Hno) as [Hb Hm].
  split; [|exact Hm]. eexists. split; [exact Hb|]. repeat split.
Qed.

Lemma on_battery_no_checks_critical_witness :
  main Scenario.no_flags (Completed (Scenario.output "120 Seconds" "100.0 Percent"))
    = Exit (u "UPS CRITICAL - on battery;" ++ nl) 2.
Proof.
  apply (on_battery_no_checks_critical Scenario.no_flags
           (Completed (Scenario.output "120 Seconds" "100.0 Percent"))
           (Scenario.record "120 Seconds" "100.0 Percent") 120%float).
  - vm_compute. reflexivity.
  - vm_compute. reflexivity.
  - vm_compute. reflexivity.
  - repeat split.
  - reflexivity.
Defined.

(** C4 as the specification states it fails: on battery, with [--online] and
    no threshold, the program does not print [UPS OK - on battery;] with exit
    status 0. *)
Lemma online_on_battery_not_ok :
  main Scenario.online_only (Completed (Scenario.output "120 Seconds" "100.0 Percent"))
    <> Exit (u "UPS OK - on battery;" ++ nl) 0.
Proof. vm_compute. discriminate. Qed.

(** C4, as amended: when the UPS is on battery (TONBATT > 0), no threshold is
    given and [--online] is passed, [always_ok] is false (it is
    [online and not on_batt]), the override of line 160 applies, and the
    program prints [UPS CRITICAL - on battery;] and exits with status 2. *)
Theorem online_on_battery_critical args result apcinfo tonbatt :
  getAPCInfo result = Return apcinfo ->
  getValue apcinfo (u "TONBATT") true = Return tonbatt ->
  gt tonbatt 0 = true ->
  no_check_requested args ->
  online args = true ->
  (exists v, try_body args result = Return v /\ always_ok v = false) /\
  main args result = Exit (u "UPS CRITICAL - on battery;" ++ nl) 2.
Proof.
  intros Hi Ht Hgt Hno _.
  destruct (on_battery_alone args result apcinfo tonbatt Hi Ht Hgt Hno) as [Hb Hm].
  split; [|exact Hm]. eexists. split; [exact Hb|reflexivity].
Qed.

Lemma online_on_battery_critical_witness :
  main Scenario.online_only (Completed (Scenario.output "120 Seconds" "100.0 Percent"))
    = Exit (u "UPS CRITICAL - on battery;" ++ nl) 2.
Proof.
  apply (online_on_battery_critical Scenario.online_only
           (Completed (Scenario.output "120 Seconds" "100.0 Percent"))
           (Scenario.record "120 Seconds" "100.0 Percent") 120%float).
  - vm_compute. reflexivity.
  - vm_compute. reflexivity.
  - vm_compute. reflexivity.
  - repeat split.
  - reflexivity.
Defined.

(** ** The run in closed form *)

Lemma parseCommandLine_cases args :
  parseCommandLine args = Return args \/
  parseCommandLine args = Raise (NameError (u "UnknownPluginException")).
Proof.
  unfold parseCommandLine.
  repeat match goal with |- context [if ?b then _ else _] => destruct b end; auto.
Qed.

(** The [try] statement ends normally exactly when the options are accepted,
    apcaccess completes, [TONBATT] can be read and so can every requested
    metric. *)
Lemma try_body_Return args result v :
  try_body args result = Return v <->
  exists apcinfo tonbatt,
    parseCommandLine args = Return args /\
    getAPCInfo result = Return apcinfo /\
    getValue apcinfo (u "TONBATT") true = Return tonbatt /\
    forallb (readable args apcinfo) metrics = true /\
    v = vars_of args apcinfo tonbatt.
Proof.
  unfold try_body. split.
  - destruct (parseCommandLine_cases args) as [Hp|Hp]; rewrite Hp; cbn [bind]; [|discriminate].
    destruct (getAPCInfo result) as [apcinfo|e]; cbn [bind]; [|discriminate].
    rewrite run_checks_eq.
    destruct (getValue apcinfo (u "TONBATT") true) as [tonbatt|e] eqn:Ht; [|discriminate].
    cbv zeta. destruct (forallb _ _) eqn:Hr; [|discriminate].
    intros [= <-]. exists apcinfo, tonbatt. auto.
  - intros (apcinfo & tonbatt & Hp & Hi & Ht & Hr & ->).
    rewrite Hp. cbn [bind]. rewrite Hi. cbn [bind].
    rewrite run_checks_eq, Ht. cbv zeta. now rewrite Hr.
Qed.

(** ** Suppression by the online flag *)

Lemma readings_set_online b args apcinfo :
  readings (set_online b args) apcinfo metrics = readings args apcinfo metrics.
Proof. reflexivity. Qed.

Lemma readable_set_online b args apcinfo :
  forallb (readable (set_online b args) apcinfo) metrics
  = forallb (readable args apcinfo) metrics.
Proof. reflexivity. Qed.

Lemma parseCommandLine_set_online b args :
  parseCommandLine args = Return args ->
  parseCommandLine (set_online b args) = Return (set_online b args).
Proof.
  unfold parseCommandLine. cbn [chargewarn chargecrit set_online].
  repeat match goal with |- context [if ?b then _ else _] => destruct b end;
    auto; discriminate.
Qed.

(** C5: in a run where [always_ok] is true (the online flag is set and the UPS
    is not on battery) no result of [checkValue] is scored: the status is OK
    and the exit status 0 whatever the thresholds and the values; and the
    text and perfdata fragments are those of the same run without the online
    flag, in which nothing is suppressed. *)
Theorem always_ok_suppresses args result v :
  try_body args result = Return v ->
  always_ok v = true ->
  (online args = true /\ on_batt v = false) /\
  (status v = 0 /\ final_status v = 0 /\ stateText (final_status v) = u "OK") /\
  (main args result = Exit (report v) 0
   /\ exit_status (main args result) = 0) /\
  (exists v',
      try_body (set_online false args) result = Return v' /\
      always_ok v' = false /\
      text v' = text v /\ perfdata v' = perfdata v).
Proof.
  intros Hbody Hok.
  pose proof Hbody as (apcinfo & tonbatt & Hp & Hi & Ht & Hr & ->)%try_body_Return.
  cbn [always_ok vars_of] in Hok. apply andb_true_iff in Hok as [Hon Hb%negb_true_iff].
  assert (Hst : status (vars_of args apcinfo tonbatt) = 0).
  { cbn [status vars_of]. now rewrite Hon, Hb. }
  assert (Hfin : final_status (vars_of args apcinfo tonbatt) = 0).
  { unfold final_status. rewrite Hst. cbn [on_batt vars_of]. now rewrite Hb. }
  split; [split; [exact Hon | exact Hb]|].
  split; [rewrite Hfin; repeat split; assumption|].
  split.
  - unfold main. rewrite Hbody, Hfin. split; reflexivity.
  - exists (vars_of (set_online false args) apcinfo tonbatt). split; [|repeat split].
    apply try_body_Return. exists apcinfo, tonbatt.
    split; [now apply parseCommandLine_set_online|]. repeat split; assumption.
Qed.

Lemma always_ok_suppresses_witness :
  main (Scenario.flags true (Some 50%float) (Some 20%float))
       (Completed (Scenario.output "0 Seconds" "10.0 Percent"))
    = Exit (u "UPS OK - online, charge: 10.0%;| charge=10.0%" ++ nl) 0.
Proof.
  refine (eq_trans
    (proj1 (proj1 (proj2 (proj2 (always_ok_suppresses
       (Scenario.flags true (Some 50%float) (Some 20%float))
       (Completed (Scenario.output "0 Seconds" "10.0 Percent"))
       (vars_of (Scenario.flags true (Some 50%float) (Some 20%float))
                (Scenario.record "0 Seconds" "10.0 Percent") 0%float) _ _))))) _).
  - vm_compute. reflexivity.
  - vm_compute. reflexivity.
  - vm_compute. reflexivity.
Defined.

(** ** Aggregation *)

Lemma update_max status new_status : update status new_status = Z.max status new_status.
Proof. apply replace_if_greater. Qed.

Lemma aggregate_from_ge status l : status <= aggregate_from status l.
Proof.
  revert status. induction l as [|x l IH]; intros status; cbn; [lia|].
  etransitivity; [|apply IH]. rewrite update_max. lia.
Qed.

Lemma aggregate_from_mono status status' l :
  status <= status' -> aggregate_from status l <= aggregate_from status' l.
Proof.
  revert status status'. induction l as [|x l IH]; intros status status' H; cbn; [lia|].
  apply IH. rewrite !update_max. lia.
Qed.

Lemma aggregate_from_bound status l b :
  status <= b -> Forall (fun x => x <= b) l -> aggregate_from status l <= b.
Proof.
  intros Hs Hl. revert status Hs. induction Hl as [|x l Hx _ IH]; intros status Hs; cbn; [lia|].
  apply IH. rewrite update_max. lia.
Qed.

(** The running status is the fold of [max] from OK. *)
Lemma aggregate_snoc l x : aggregate (l ++ [x]) = Z.max (aggregate l) x.
Proof. unfold aggregate. rewrite aggregate_from_app. cbn. apply update_max. Qed.

(** Results scored in between never lower the status. *)
Lemma aggregate_insert l1 l l2 : aggregate (l1 ++ l2) <= aggregate (l1 ++ l ++ l2).
Proof.
  unfold aggregate. rewrite !aggregate_from_app.
  apply aggregate_from_mono, aggregate_from_ge.
Qed.

Lemma severities_range options ok rs :
  Forall (fun x => 0 <= x <= 2) (severities options ok rs).
Proof.
  unfold severities. destruct ok; [constructor|].
  apply Forall_map, Forall_forall. intros r _. apply checkValue_range.
Qed.

Lemma status_range args apcinfo tonbatt :
  0 <= status (vars_of args apcinfo tonbatt) <= 2.
Proof.
  cbn [status vars_of]. split.
  - apply (aggregate_from_ge 0).
  - apply aggregate_from_bound; [lia|].
    eapply Forall_impl; [apply severities_range|]. cbn. lia.
Qed.

Lemma reading_not_requested args apcinfo m :
  requested m args = false -> reading args apcinfo m = [].
Proof. unfold reading. now intros ->. Qed.

Lemma severities_metrics args apcinfo ok :
  severities args ok (readings args apcinfo metrics)
  = scores args apcinfo ok charge_metric
      ++ scores args apcinfo ok runtime_metric
      ++ scores args apcinfo ok voltage_metric.
Proof.
  unfold readings, metrics, scores. cbn [flat_map].
  rewrite (app_nil_r (reading args apcinfo voltage_metric)).
  now rewrite !severities_app.
Qed.

Lemma scores_not_requested args apcinfo ok m :
  requested m args = false -> scores args apcinfo ok m = [].
Proof.
  intros H. unfold scores. rewrite (reading_not_requested _ _ _ H).
  unfold severities. now destruct ok.
Qed.

Lemma scores_ext args args' apcinfo ok m :
  m_warn m args' = m_warn m args -> m_crit m args' = m_crit m args ->
  scores args' apcinfo ok m = scores args apcinfo ok m.
Proof.
  intros Hw Hc. unfold scores, reading, requested. rewrite Hw, Hc.
  destruct (_ || _); [|reflexivity].
  destruct (getValue apcinfo (m_key m) true); [|reflexivity].
  unfold severities. destruct ok; [reflexivity|]. cbn. now rewrite Hw, Hc.
Qed.

(** The status at line 153 does not decrease when one more metric is
    requested. *)
Lemma status_adds_metric args args' apcinfo tonbatt :
  adds_metric args args' ->
  status (vars_of args apcinfo tonbatt) <= status (vars_of args' apcinfo tonbatt).
Proof.
  intros H. cbn [status vars_of].
  replace (online args') with (online args) by (destruct H; reflexivity).
  set (ok := online args && negb (gt tonbatt 0)).
  rewrite !severities_metrics.
  destruct H as [args w c Hn Hr|args w c Hn Hr|args w c Hn Hr].
  - rewrite (scores_not_requested args _ _ _ Hn).
    rewrite (scores_ext args (with_charge w c args) _ _ runtime_metric) by reflexivity.
    rewrite (scores_ext args (with_charge w c args) _ _ voltage_metric) by reflexivity.
    apply (aggregate_insert []).
  - rewrite (scores_not_requested args _ _ _ Hn).
    rewrite (scores_ext args (with_runtime w c args) _ _ charge_metric) by reflexivity.
    rewrite (scores_ext args (with_runtime w c args) _ _ voltage_metric) by reflexivity.
    apply (aggregate_insert _ _ _).
  - rewrite (scores_not_requested args _ _ _ Hn).
    rewrite (scores_ext args (with_voltage w c args) _ _ charge_metric) by reflexivity.
    rewrite (scores_ext args (with_voltage w c args) _ _ runtime_metric) by reflexivity.
    set (A := scores args apcinfo ok charge_metric).
    set (B := scores args apcinfo ok runtime_metric).
    set (S := scores (with_voltage w c args) apcinfo ok voltage_metric).
    replace (A ++ B ++ []) with ((A ++ B) ++ []) by now rewrite <- app_assoc.
    replace (A ++ B ++ S) with ((A ++ B) ++ S ++ []) by now rewrite app_nil_r, <- app_assoc.
    apply aggregate_insert.
Qed.

Lemma final_status_ge v : status v <= 2 -> status v <= final_status v.
Proof. unfold final_status. destruct (_ && _); lia. Qed.

(** C6, as amended.  The status accumulated over the metric checks (lines
    124-153) is the running maximum of the scored results of [checkValue],
    starting from OK; a new result replaces it only when strictly greater.
    Consequently one more result, and one more requested metric, never
    decrease that accumulated status.  The severity the program reports is
    this status unless the override of line 160 applies (on battery and only
    the power-state fragment), and it does not decrease either when the
    override does not apply to the run with fewer metrics. *)
Theorem status_is_running_maximum :
  (forall status new_status,
      update status new_status = Z.max status new_status /\
      (new_status <= status -> update status new_status = status) /\
      (status < new_status -> update status new_status = new_status)) /\
  (aggregate [] = 0 /\
   (forall l x, aggregate (l ++ [x]) = update (aggregate l) x) /\
   (forall l x, aggregate l <= aggregate (l ++ [x])) /\
   (forall l1 l2 x, aggregate (l1 ++ l2) <= aggregate (l1 ++ x :: l2))) /\
  (forall args result v,
      try_body args result = Return v ->
      exists apcinfo,
        getAPCInfo result = Return apcinfo /\
        status v = aggregate (severities args (always_ok v) (readings args apcinfo metrics))) /\
  (forall args args' result v v',
      adds_metric args args' ->
      try_body args result = Return v ->
      try_body args' result = Return v' ->
      status v <= status v' /\
      (~ (on_batt v = true /\ length (text v) = 1%nat) -> final_status v <= final_status v')).
Proof.
  split; [|split; [|split]].
  - intros status new_status. rewrite update_max. repeat split; lia.
  - split; [reflexivity|]. split; [|split].
    + intros l x. now rewrite aggregate_snoc, update_max.
    + intros l x. rewrite aggregate_snoc. lia.
    + intros l1 l2 x. apply (aggregate_insert l1 [x] l2).
  - intros args result v (apcinfo & tonbatt & _ & Hi & _ & _ & ->)%try_body_Return.
    exists apcinfo. split; [exact Hi|reflexivity].
  - intros args args' result v v' Hadd
      (apcinfo & tonbatt & _ & Hi & Ht & _ & ->)%try_body_Return
      (apcinfo' & tonbatt' & _ & Hi' & Ht' & _ & ->)%try_body_Return.
    rewrite Hi in Hi'. injection Hi' as <-. rewrite Ht in Ht'. injection Ht' as <-.
    pose proof (status_adds_metric args args' apcinfo tonbatt Hadd) as Hle.
    split; [exact Hle|]. intros Hno.
    etransitivity; [|apply final_status_ge, status_range].
    etransitivity; [|exact Hle].
    unfold final_status.
    destruct (on_batt (vars_of args apcinfo tonbatt)) eqn:Hb; cbn [andb]; [|lia].
    destruct (length (text (vars_of args apcinfo tonbatt)) =? 1)%nat eqn:Hl; cbn [andb]; [|lia].
    exfalso. apply Hno. split; [reflexivity|]. now apply Nat.eqb_eq.
Qed.

(** C6 as the specification states it fails for the severity the program
    reports: on battery, requesting the charge check (charge 100 against a
    warning threshold of 50) where no metric was requested lowers the
    reported severity from CRITICAL to OK. *)
Lemma first_metric_lowers_severity :
  adds_metric Scenario.no_flags Scenario.charge_50 /\
  main Scenario.no_flags (Completed (Scenario.output "120 Seconds" "100.0 Percent"))
    = Exit (u "UPS CRITICAL - on battery;" ++ nl) 2 /\
  main Scenario.charge_50 (Completed (Scenario.output "120 Seconds" "100.0 Percent"))
    = Exit (u "UPS OK - on battery, charge: 100.0%;| charge=100.0%" ++ nl) 0 /\
  ~ (exit_status (main Scenario.no_flags
                    (Completed (Scenario.output "120 Seconds" "100.0 Percent")))
     <= exit_status (main Scenario.charge_50
                       (Completed (Scenario.output "120 Seconds" "100.0 Percent")))).
Proof.
  split; [|split; [|split]].
  - apply (adds_charge Scenario.no_flags (Some 50%float) None); reflexivity.
  - vm_compute. reflexivity.
  - vm_compute. reflexivity.
  - vm_compute. intros H. apply H. reflexivity.
Qed.

(** ** The report *)

Lemma one_line_app a b : one_line a -> one_line b -> one_line (a ++ b).
Proof. intros. now apply Forall_app. Qed.

Lemma one_line_uint d : one_line (u (NilEmpty.string_of_uint d)).
Proof. induction d; cbn; constructor; (reflexivity || assumption). Qed.

Lemma one_line_digits_of n : one_line (digits_of n).
Proof.
  unfold digits_of, NilZero.string_of_uint.
  destruct (N.to_uint (Z.to_N n)) eqn:E; try (rewrite <- E; apply one_line_uint).
  repeat constructor.
Qed.

Lemma span_Forall (P : char -> Prop) p s :
  Forall P s -> Forall P (span p s).1 /\ Forall P (span p s).2.
Proof.
  induction 1 as [|c s Hc Hs [IH1 IH2]]; cbn; [split; constructor|].
  destruct (p c); [|split; [constructor | now constructor]].
  destruct (span p s) as [a b]. cbn in *. split; [now constructor | assumption].
Qed.

Lemma one_line_rstrip_zeros s : one_line s -> one_line (rstrip_zeros s).
Proof.
  intros H. unfold rstrip_zeros. apply Forall_rev.
  apply span_Forall. now apply Forall_rev.
Qed.

Lemma one_line_repeat c n : islinebreak c = false -> one_line (repeat c n).
Proof. intros H. induction n; cbn; now constructor. Qed.

Lemma one_line_format_repr ds decpt : one_line ds -> one_line (format_repr ds decpt).
Proof.
  intros H. unfold format_repr.
  destruct (_ || _).
  - repeat apply one_line_app; try apply one_line_digits_of.
    + destruct H as [|c [|c' tl] Hc Htl]; [constructor| now repeat constructor |].
      constructor; [assumption|]. apply one_line_app; [now repeat constructor | assumption].
    + now repeat constructor.
    + destruct (_ <? 0); now repeat constructor.
    + destruct (_ <? 10); now repeat constructor.
  - destruct (decpt <=? 0); [|destruct (_ <=? decpt)].
    + repeat apply one_line_app; try assumption;
        [now repeat constructor | now apply one_line_repeat].
    + repeat apply one_line_app; try assumption;
        [now apply one_line_repeat | now repeat constructor].
    + repeat apply one_line_app;
        [now apply Forall_take | now repeat constructor | now apply Forall_drop].
Qed.

Lemma one_line_repr f : one_line (repr f).
Proof.
  unfold repr. destruct (Prim2SF f) as [[]|[]| |s m e]; try now repeat constructor.
  destruct (if 0 <=? e then _ else _) as [num den].
  destruct (shortest_from _ _ _ _ _ _) as [d x].
  apply one_line_app; [destruct s; now repeat constructor|].
  apply one_line_format_repr, one_line_rstrip_zeros, one_line_digits_of.
Qed.

Lemma one_line_join sep l : one_line sep -> Forall one_line l -> one_line (join sep l).
Proof.
  intros Hsep. induction 1 as [|x l Hx Hl IH]; [constructor|].
  destruct l as [|y l]; [exact Hx|].
  change (join sep (x :: y :: l)) with (x ++ sep ++ join sep (y :: l)).
  now repeat apply one_line_app.
Qed.

Lemma one_line_stateText state : one_line (stateText state).
Proof.
  unfold stateText.
  repeat match goal with |- context [if ?b then _ else _] => destruct b end;
    now repeat constructor.
Qed.

Lemma one_line_reading args apcinfo m :
  (forall val, one_line (m_text m val)) -> (forall val, one_line (m_perf m val)) ->
  Forall one_line (map text_of (reading args apcinfo m)) /\
  Forall one_line (map perf_of (reading args apcinfo m)).
Proof.
  intros Ht Hp. unfold reading.
  destruct (requested m args); [|split; constructor].
  destruct (getValue apcinfo (m_key m) true) as [val|e]; split; repeat constructor.
  - apply Ht.
  - apply Hp.
Qed.

Lemma one_line_metrics m :
  m ∈ metrics ->
  (forall val, one_line (m_text m val)) /\ (forall val, one_line (m_perf m val)).
Proof.
  unfold metrics. rewrite !elem_of_cons, elem_of_nil.
  intros [->|[->|[->|H]]]; [| | |destruct H]; split; intros val; cbn [m_text m_perf charge_metric
    runtime_metric voltage_metric];
    repeat apply one_line_app; try apply one_line_repr; now repeat constructor.
Qed.

Lemma one_line_readings args apcinfo ms :
  (forall m, m ∈ ms -> m ∈ metrics) ->
  Forall one_line (map text_of (readings args apcinfo ms)) /\
  Forall one_line (map perf_of (readings args apcinfo ms)).
Proof.
  induction ms as [|m ms IH]; intros Hin; [split; constructor|].
  unfold readings. cbn [flat_map]. rewrite !map_app.
  destruct (one_line_metrics m) as [Ht Hp]; [apply Hin; left|].
  destruct (one_line_reading args apcinfo m Ht Hp) as [H1 H2].
  destruct IH as [IH1 IH2]; [intros m' Hm'; apply Hin; now right|].
  split; now apply Forall_app.
Qed.

Lemma one_line_fragments args apcinfo tonbatt :
  Forall one_line (text (vars_of args apcinfo tonbatt)) /\
  Forall one_line (perfdata (vars_of args apcinfo tonbatt)).
Proof.
  destruct (one_line_readings args apcinfo metrics) as [H1 H2]; [auto|].
  cbn [text perfdata vars_of]. split; [|exact H2].
  constructor; [|exact H1]. destruct (gt tonbatt 0); now repeat constructor.
Qed.

Lemma final_status_cases args apcinfo tonbatt :
  let v := vars_of args apcinfo tonbatt in
  (final_status v = 0 /\ stateText (final_status v) = u "OK") \/
  (final_status v = 1 /\ stateText (final_status v) = u "WARNING") \/
  (final_status v = 2 /\ stateText (final_status v) = u "CRITICAL").
Proof.
  intros v. assert (H : 0 <= final_status v <= 2).
  { unfold final_status. destruct (_ && _); [lia|apply status_range]. }
  assert (final_status v = 0 \/ final_status v = 1 \/ final_status v = 2) as [H0 | [H0 | H0] ]
    by lia; rewrite H0; auto.
Qed.

(** C7, as amended.  On the success path the program writes exactly one line,
    [UPS <SEVERITY_NAME> - <fragment1>, <fragment2>, ...;] followed, only if
    there is a perfdata fragment, by [| <perf1>,<perf2>,...], and ended by a
    single newline; the exit status is the severity, 0, 1 or 2, and the name
    is OK, WARNING or CRITICAL accordingly.  For the record of the scenario
    with [--charge-warn 50 --charge-crit 20] and no online flag the output is
    [UPS OK - online, charge: 100.0%;| charge=100.0%] (no space between the
    semicolon and the bar) and the exit status is 0. *)
Theorem report_format :
  (forall args result v,
      try_body args result = Return v ->
      main args result = Exit (report_line v ++ nl) (final_status v) /\
      one_line (report_line v) /\
      text v <> [] /\
      length (perfdata v) = pred (length (text v)) /\
      ((final_status v = 0 /\ stateText (final_status v) = u "OK") \/
       (final_status v = 1 /\ stateText (final_status v) = u "WARNING") \/
       (final_status v = 2 /\ stateText (final_status v) = u "CRITICAL"))) /\
  (forall result,
      getAPCInfo result = Return (Scenario.record "0 Seconds" "100.0 Percent") ->
      main Scenario.charge_50_20 result
        = Exit (u "UPS OK - online, charge: 100.0%;| charge=100.0%" ++ nl) 0).
Proof.
  split.
  - intros args result v Hbody.
    pose proof Hbody as (apcinfo & tonbatt & _ & _ & _ & _ & ->)%try_body_Return.
    destruct (one_line_fragments args apcinfo tonbatt) as [Ht Hp].
    split; [|split; [|split; [|split]]].
    + unfold main. rewrite Hbody. f_equal. unfold report, report_line.
      now rewrite <- !app_assoc.
    + unfold report_line.
      apply one_line_app; [now repeat constructor|].
      apply one_line_app; [apply one_line_stateText|].
      apply one_line_app; [now repeat constructor|].
      apply one_line_app; [apply one_line_join; [now repeat constructor | exact Ht]|].
      apply one_line_app; [now repeat constructor|].
      destruct (perfdata _) as [|p ps]; [constructor|].
      apply one_line_app; [now repeat constructor|].
      apply one_line_join; [now repeat constructor | exact Hp].
    + discriminate.
    + cbn [text perfdata vars_of length pred]. now rewrite !length_map.
    + apply final_status_cases.
  - intros result Hi. unfold main, try_body.
    change (parseCommandLine Scenario.charge_50_20) with (Return Scenario.charge_50_20).
    cbn [bind]. rewrite Hi. vm_compute. reflexivity.
Qed.

(** C7 as the specification states it fails on its scenario: the output has
    no space between the semicolon and the bar. *)
Lemma scenario_output_has_no_space :
  main Scenario.charge_50_20 (Completed (Scenario.output "0 Seconds" "100.0 Percent"))
    <> Exit (u "UPS OK - online, charge: 100.0%; | charge=100.0%" ++ nl) 0.
Proof. vm_compute. discriminate. Qed.

(** ** Parser and extractor round trip *)

Lemma getAPCInfo_Completed stdout :
  getAPCInfo (Completed stdout) = Return (foldl store ∅ (splitlines stdout)).
Proof. reflexivity. Qed.

Lemma opt_hit p c s : p c = true -> opt p (c :: s) = ([c], s).
Proof. cbn. now intros ->. Qed.

Lemma opt_miss p s : head_fails p s -> opt p s = ([], s).
Proof. destruct s as [|c s]; cbn; [reflexivity | now intros ->]. Qed.

Lemma span_app p ds r :
  Forall (fun c => p c = true) ds -> head_fails p r -> span p (ds ++ r) = (ds, r).
Proof.
  intros Hds Hr. induction Hds as [|c ds Hc _ IH]; cbn.
  - destruct r as [|c r]; cbn in *; [reflexivity | now rewrite Hr].
  - now rewrite Hc, IH.
Qed.

Lemma head_fails_app p a b :
  Forall (fun c => p c = false) a -> head_fails p b -> head_fails p (a ++ b).
Proof. destruct 1; cbn; auto. Qed.

Lemma isdigit_cases c :
  isdigit c = true ->
  (c = 48 \/ c = 49 \/ c = 50 \/ c = 51 \/ c = 52 \/ c = 53 \/ c = 54 \/ c = 55
   \/ c = 56 \/ c = 57)%N.
Proof.
  unfold isdigit. intros [H1%N.leb_le H2%N.leb_le]%andb_true_iff. lia.
Qed.

Lemma digit_not_sign c : isdigit c = true -> issign c = false.
Proof. intros H%isdigit_cases. repeat destruct H as [H|H]; now subst. Qed.

Lemma digit_not_space c : isdigit c = true -> isspace c = false.
Proof. intros H%isdigit_cases. repeat destruct H as [H|H]; now subst. Qed.

Lemma digits_not_sign ds :
  Forall (fun c => isdigit c = true) ds -> Forall (fun c => issign c = false) ds.
Proof. intros H. eapply Forall_impl; [exact H | apply digit_not_sign]. Qed.

Lemma digits_not_space ds :
  Forall (fun c => isdigit c = true) ds -> Forall (fun c => isspace c = false) ds.
Proof. intros H. eapply Forall_impl; [exact H | apply digit_not_space]. Qed.

Lemma decimal_token_not_space s :
  decimal_token s -> Forall (fun c => isspace c = false) s.
Proof.
  intros (sg & ip & dt & fp & -> & Hsg & Hip & Hdt & Hfp).
  repeat apply Forall_app_2; auto using digits_not_space.
  - destruct Hsg as [->|[->| ->]]; now repeat constructor.
  - destruct Hdt as [->| ->]; now repeat constructor.
Qed.

(** On a token followed by something that cannot continue it, the regular
    expression matches the token. *)
Lemma match_number_token num rest :
  decimal_token num ->
  head_fails issign rest -> head_fails isdigit rest -> head_fails isdot rest ->
  match_number (num ++ rest) = (num, rest).
Proof.
  intros (sg & ip & dt & fp & -> & Hsg & Hip & Hdt & Hfp) Hs Hd Hp.
  unfold match_number.
  assert (H1 : opt issign ((sg ++ ip ++ dt ++ fp) ++ rest)
               = (sg, ip ++ dt ++ fp ++ rest)).
  { rewrite <- !app_assoc. destruct Hsg as [->|[->| ->]].
    - apply opt_miss. cbn [app].
      apply head_fails_app; [now apply digits_not_sign|].
      apply head_fails_app; [destruct Hdt as [->| ->]; now repeat constructor|].
      apply head_fails_app; [now apply digits_not_sign | assumption].
    - now apply opt_hit.
    - now apply opt_hit. }
  rewrite H1. destruct Hdt as [->| ->].
  - cbn [app]. rewrite (app_assoc ip fp rest).
    rewrite (span_app isdigit (ip ++ fp) rest) by (now apply Forall_app_2 || assumption).
    rewrite (opt_miss isdot rest Hp).
    pose proof (span_app isdigit [] rest (Forall_nil_2 _) Hd) as H2. cbn [app] in H2.
    rewrite H2.
    now rewrite !app_nil_r.
  - rewrite (span_app isdigit ip (u "." ++ fp ++ rest)) by (assumption || reflexivity).
    replace (opt isdot (u "." ++ fp ++ rest)) with (u ".", fp ++ rest) by reflexivity.
    now rewrite (span_app isdigit fp rest).
Qed.

Lemma lstrip_spaces pad s :
  Forall (fun c => isspace c = true) pad -> lstrip (pad ++ s) = lstrip s.
Proof. induction 1 as [|c pad Hc _ IH]; cbn; [reflexivity | now rewrite Hc]. Qed.

Lemma lstrip_id s : head_fails isspace s -> lstrip s = s.
Proof. destruct s as [|c s]; cbn; [reflexivity | now intros ->]. Qed.

Lemma lstrip_app_cases a b :
  lstrip (a ++ b) = lstrip b \/ exists a', lstrip (a ++ b) = a' ++ b.
Proof.
  induction a as [|c a IH]; cbn; [now left|].
  destruct (isspace c); [exact IH|]. right. now exists (c :: a).
Qed.

(** Stripping the value of a line leaves the number, followed by nothing or
    by the space before the unit. *)
Lemma strip_value pad num unit_ :
  Forall (fun c => isspace c = true) pad ->
  Forall (fun c => isspace c = false) num ->
  num <> [] ->
  exists rest,
    strip (pad ++ num ++ u " " ++ unit_) = num ++ rest /\
    (rest = [] \/ exists r, rest = 32%N :: r).
Proof.
  intros Hpad Hnum Hne. unfold strip. rewrite (lstrip_spaces pad _ Hpad).
  change (u " " ++ unit_) with (32%N :: unit_).
  rewrite lstrip_id by (destruct Hnum; [congruence | assumption]).
  unfold rstrip. rewrite rev_app_distr. cbn [rev]. rewrite <- app_assoc. cbn [app].
  destruct (lstrip_app_cases (rev unit_) (32%N :: rev num)) as [->|[a' ->]].
  - exists []. split; [|now left].
    change (lstrip (32%N :: rev num)) with (lstrip (rev num)).
    rewrite lstrip_id, rev_involutive, app_nil_r; [reflexivity|].
    apply Forall_rev in Hnum. destruct Hnum; cbn; auto.
  - exists (32%N :: rev a'). split; [|eauto].
    rewrite rev_app_distr. cbn [rev]. rewrite rev_involutive, <- app_assoc. reflexivity.
Qed.

Lemma has_colon_app k v : has_colon (k ++ colon :: v) = true.
Proof.
  unfold has_colon. rewrite existsb_app. cbn. now rewrite orb_true_r.
Qed.

Lemma split_colon_app k v :
  has_colon k = false -> split_colon (k ++ colon :: v) = (k, v).
Proof.
  unfold has_colon. induction k as [|c k IH]; cbn [existsb app split_colon].
  - now rewrite N.eqb_refl.
  - intros [Hc Hk]%orb_false_iff. rewrite N.eqb_sym in Hc. now rewrite Hc, IH.
Qed.

Lemma store_line d e :
  well_formed e -> store d (line_of e) = <[stored_key e := strip (value_of e)]> d.
Proof.
  intros (Hk & _ & _). unfold store, line_of.
  now rewrite has_colon_app, split_colon_app.
Qed.

Lemma foldl_store_other es d k :
  Forall well_formed es -> k ∉ map stored_key es ->
  foldl store d (map line_of es) !! k = d !! k.
Proof.
  intros Hwf. revert d. induction Hwf as [|e es He _ IH]; intros d Hk; [reflexivity|].
  cbn [map foldl] in *. apply not_elem_of_cons in Hk as [Hne Hk].
  rewrite IH, store_line by assumption. now apply lookup_insert_ne.
Qed.

(** With distinct keys, each key is stored with the stripped value of its
    line. *)
Lemma foldl_store_lookup es d e :
  Forall well_formed es -> NoDup (map stored_key es) -> e ∈ es ->
  foldl store d (map line_of es) !! stored_key e = Some (strip (value_of e)).
Proof.
  intros Hwf. revert d. induction Hwf as [|e0 es He0 Hwf IH]; intros d Hnd Hin.
  - now apply elem_of_nil in Hin.
  - cbn [map foldl] in *. apply NoDup_cons in Hnd as [Hnotin Hnd].
    apply elem_of_cons in Hin as [->|Hin].
    + rewrite foldl_store_other, store_line by assumption. apply lookup_insert_eq.
    + now apply IH.
Qed.

Lemma float_of_str_nonempty s f : float_of_str s = Some f -> s <> [].
Proof. intros H ->. discriminate H. Qed.

(** C9: for every status text whose lines are [<key>:<pad><num> <unit>] with
    distinct keys (as stored: stripped, and without colon), white space before
    the number and a signed decimal token for the number, parsing the text and
    extracting a key as a float returns the float value of its number. *)
Theorem parse_extract_roundtrip (text : str) (es : list entry) (apcinfo : gmap str str) :
  splitlines text = map line_of es ->
  Forall well_formed es ->
  NoDup (map stored_key es) ->
  getAPCInfo (Completed text) = Return apcinfo ->
  forall e f,
    e ∈ es ->
    float_of_str (e_num e) = Some f ->
    getValue apcinfo (stored_key e) true = Return f.
Proof.
  intros Hlines Hwf Hnd Hinfo e f Hin Hf.
  rewrite getAPCInfo_Completed, Hlines in Hinfo. injection Hinfo as <-.
  pose proof (foldl_store_lookup es ∅ e Hwf Hnd Hin) as Hlook.
  rewrite (getValue_float _ _ _ Hlook).
  assert (He : well_formed e) by exact (proj1 (Forall_forall _ _) Hwf e Hin).
  destruct He as (_ & Hpad & Htok).
  destruct (strip_value (e_pad e) (e_num e) (e_unit e) Hpad
              (decimal_token_not_space _ Htok) (float_of_str_nonempty _ _ Hf))
    as (rest & Hstrip & Hrest).
  unfold value_of. rewrite Hstrip.
  rewrite match_number_token; [cbn [fst]; now rewrite Hf|assumption| | |];
    destruct Hrest as [->|[r ->]]; cbn; auto.
Qed.

Lemma forallb_Forall (p : char -> bool) (l : str) :
  forallb p l = true -> Forall (fun c => p c = true) l.
Proof.
  induction l as [|c l IH]; cbn; [constructor|].
  intros [Hc Hl]%andb_true_iff. constructor; auto.
Qed.

Lemma decimal_token_intro sg ip dt fp :
  (sg = [] \/ sg = u "+" \/ sg = u "-") ->
  forallb isdigit ip = true ->
  (dt = [] \/ dt = u ".") ->
  forallb isdigit fp = true ->
  decimal_token (sg ++ ip ++ dt ++ fp).
Proof.
  intros Hsg Hip Hdt Hfp. exists sg, ip, dt, fp.
  split; [reflexivity|]. split; [exact Hsg|].
  split; [now apply forallb_Forall|]. split; [exact Hdt | now apply forallb_Forall].
Qed.

Lemma scenario_entries_well_formed : Forall well_formed scenario_entries.
Proof.
  unfold scenario_entries.
  repeat apply Forall_cons_2; [| | | |apply Forall_nil_2];
    (split; [reflexivity|]; split; [repeat constructor|]).
  - apply (decimal_token_intro [] (u "0") [] []); auto.
  - apply (decimal_token_intro [] (u "100") (u ".") (u "0")); auto.
  - apply (decimal_token_intro [] (u "45") (u ".") (u "0")); auto.
  - apply (decimal_token_intro [] (u "13") (u ".") (u "5")); auto.
Qed.

Lemma parse_extract_roundtrip_witness :
  getValue (Scenario.record "0 Seconds" "100.0 Percent") (u "BCHARGE") true
    = Return 100%float.
Proof.
  refine (parse_extract_roundtrip
            (Scenario.output "0 Seconds" "100.0 Percent") scenario_entries
            (Scenario.record "0 Seconds" "100.0 Percent")
            _ scenario_entries_well_formed _ _
            {| e_key := u "BCHARGE  "; e_pad := u " "; e_num := u "100.0";
               e_unit := u "Percent" |}
            100%float _ _).
  - vm_compute. reflexivity.
  - refine (bool_decide_unpack (NoDup (map stored_key scenario_entries)) _).
    vm_compute. exact I.
  - vm_compute. reflexivity.
  - apply elem_of_cons. right. apply elem_of_cons. now left.
  - vm_compute. reflexivity.
Defined.

(** ** Instances of the general statements *)

(** The scenario of C7 on an output of apcaccess that parses to its record. *)
Lemma report_format_witness :
  main Scenario.charge_50_20 (Completed (Scenario.output "0 Seconds" "100.0 Percent"))
    = Exit (u "UPS OK - online, charge: 100.0%;| charge=100.0%" ++ nl) 0.
Proof.
  apply (proj2 report_format). vm_compute. reflexivity.
Defined.

(** With a charge of 10 against thresholds 50 and 20 the status is CRITICAL;
    requesting the voltage check as well (13.5 against a warning threshold of
    14, a WARNING) leaves it CRITICAL. *)
Lemma status_is_running_maximum_witness :
  status (vars_of Scenario.charge_50_20
            (Scenario.record "0 Seconds" "10.0 Percent") 0%float) = 2 /\
  status (vars_of Scenario.charge_50_20
            (Scenario.record "0 Seconds" "10.0 Percent") 0%float)
  <= status (vars_of (with_voltage (Some 14%float) None Scenario.charge_50_20)
               (Scenario.record "0 Seconds" "10.0 Percent") 0%float).
Proof.
  split; [vm_compute; reflexivity|].
  refine (proj1 (proj2 (proj2 (proj2 status_is_running_maximum))
                   Scenario.charge_50_20
                   (with_voltage (Some 14%float) None Scenario.charge_50_20)
                   (Completed (Scenario.output "0 Seconds" "10.0 Percent"))
                   _ _ _ _ _)).
  - apply adds_voltage; reflexivity.
  - vm_compute. reflexivity.
  - vm_compute. reflexivity.
Defined.

(** With [--charge-warn 0] alone the charge block does nothing, and the run
    is the run without any flag. *)
Lemma zero_threshold_as_absent_witness :
  check_charge (Scenario.flags false (Some 0%float) None)
    (Scenario.record "120 Seconds" "10.0 Percent") false (0, [u "on battery"], [])
    = Return (0, [u "on battery"], []) /\
  main (Scenario.flags false (Some 0%float) None)
       (Completed (Scenario.output "120 Seconds" "10.0 Percent"))
    = Exit (u "UPS CRITICAL - on battery;" ++ nl) 2.
Proof.
  split.
  - apply (proj2 (proj2 (proj2 zero_threshold_as_absent))); reflexivity.
  - rewrite (proj1 (proj2 (proj2 zero_threshold_as_absent))). vm_compute. reflexivity.
Defined.

(** ** Outcomes of a run *)

Lemma parseCommandLine_accepted args :
  parseCommandLine args =
  if accepted args then Return args else Raise (NameError (u "UnknownPluginException")).
Proof.
  unfold parseCommandLine, accepted.
  fold (out_of_range (chargewarn args)). fold (out_of_range (chargecrit args)).
  destruct (out_of_range (chargewarn args)), (out_of_range (chargecrit args)); reflexivity.
Qed.



Lemma run_checks_all_readable args apcinfo :
  run_checks args apcinfo =
  match getValue apcinfo (u "TONBATT") true with
  | Return tonbatt =>
      if all_readable args apcinfo then Return (vars_of args apcinfo tonbatt)
      else Raise (NameError (u "exception"))
  | Raise _ => Raise (NameError (u "exception"))
  end.
Proof.
  rewrite run_checks_eq. unfold all_readable.
  destruct (getValue apcinfo (u "TONBATT") true) as [tonbatt|e] eqn:E.
  - reflexivity.
  - now rewrite (getValue_raises_NameError _ _ true _ E).
Qed.

(** The whole program in closed form. *)
Lemma main_eq args result :
  main args result =
  if accepted args then
    match getAPCInfo result with
    | Raise _ => Exit (u "UPS UNKNOWN - " ++ failure_message result ++ nl) 3
    | Return apcinfo =>
        match getValue apcinfo (u "TONBATT") true with
        | Return tonbatt =>
            if all_readable args apcinfo
            then Exit (report (vars_of args apcinfo tonbatt))
                      (final_status (vars_of args apcinfo tonbatt))
            else Traceback (NameError (u "exception"))
        | Raise _ => Traceback (NameError (u "exception"))
        end
    end
  else Traceback (NameError (u "UnknownPluginException")).
Proof.
  unfold main, try_body. rewrite parseCommandLine_accepted.
  destruct (accepted args); [|reflexivity]. cbn [bind].
  destruct result as [stdout|rc|e]; [|reflexivity|reflexivity].
  cbn [getAPCInfo bind]. rewrite run_checks_all_readable.
  destruct (getValue _ (u "TONBATT") true); [|reflexivity].
  destruct (all_readable _ _); reflexivity.
Qed.

Lemma final_status_range args apcinfo tonbatt :
  0 <= final_status (vars_of args apcinfo tonbatt) <= 2.
Proof.
  unfold final_status. destruct (_ && _); [lia | apply status_range].
Qed.


(** X2: when the options are accepted and apcaccess fails, the program writes
    [UPS UNKNOWN - ] followed by the message of the failure (the exit code of
    the command, or the text of the error that prevented running it) and
    exits with status 3. *)
Theorem apcaccess_failure_reported args :
  accepted args = true ->
  (forall returncode,
      main args (CalledProcessError returncode)
      = Exit (u "UPS UNKNOWN - Apcaccess command exited with error "
                ++ str_of_int returncode ++ nl) 3) /\
  (forall e,
      main args (OtherError e)
      = Exit (u "UPS UNKNOWN - Failed to run apcaccess: " ++ e ++ nl) 3).
Proof.
  intros Ha. split; intros x; rewrite main_eq, Ha; cbn [getAPCInfo failure_message];
    now rewrite <- !app_assoc.
Qed.

Lemma apcaccess_failure_reported_witness :
  main Scenario.charge_50_20 (CalledProcessError 2)
    = Exit (u "UPS UNKNOWN - Apcaccess command exited with error 2" ++ nl) 3.
Proof.
  refine (eq_trans (proj1 (apcaccess_failure_reported Scenario.charge_50_20 _) 2) _).
  - reflexivity.
  - vm_compute. reflexivity.
Defined.

(** X3: the exit status is 3 exactly when the options are accepted and
    apcaccess failed; no threshold, value or missing key leads to it. *)
Theorem exit_3_iff_apcaccess_failed args result :
  exit_status (main args result) = 3 <-> accepted args = true /\ failed result = true.
Proof.
  rewrite main_eq. destruct (accepted args); [|cbn; split; [lia | intros [? _]; discriminate]].
  destruct result as [stdout|rc|e]; cbn [getAPCInfo failed exit_status];
    [|tauto|tauto].
  destruct (getValue _ (u "TONBATT") true) as [tonbatt|e];
    [|cbn; split; [lia | intros [_ ?]; discriminate]].
  destruct (all_readable _ _); cbn [exit_status];
    [|split; [lia | intros [_ ?]; discriminate]].
  pose proof (final_status_range args (foldl store ∅ (splitlines stdout)) tonbatt) as H.
  split; [|intros [_ ?]; discriminate].
  unfold store in H. lia.
Qed.


(** ** The override and the online flag *)

Lemma readings_length args apcinfo ms :
  forallb (readable args apcinfo) ms = true ->
  length (readings args apcinfo ms)
  = length (filter (fun m => requested m args = true) ms).
Proof.
  induction ms as [|m ms IH]; [reflexivity|].
  cbn [forallb]. intros [Hm Hms]%andb_true_iff.
  unfold readings. cbn [flat_map]. fold (readings args apcinfo ms).
  rewrite length_app, (IH Hms), filter_cons.
  unfold readable in Hm. unfold reading.
  destruct (requested m args) eqn:Hreq; cbn [negb orb] in Hm.
  - destruct (getValue apcinfo (m_key m) true); [|discriminate].
    destruct (decide (true = true)); [reflexivity | congruence].
  - destruct (decide (false = true)); [discriminate | reflexivity].
Qed.

Lemma nothing_requested_count args :
  nothing_requested args = (requested_count args =? 0)%nat.
Proof.
  unfold nothing_requested, requested_count.
  induction metrics as [|m ms IH]; [reflexivity|].
  cbn [forallb]. rewrite filter_cons, IH.
  destruct (requested m args); cbn [negb andb].
  - destruct (decide (true = true)); [reflexivity | congruence].
  - destruct (decide (false = true)); [discriminate | reflexivity].
Qed.

(** X5: in a run that reaches the report there is one text fragment for the
    power state and one more, with one perfdata fragment, for each requested
    metric; a UPS on battery is never always OK, so that the test of
    [always_ok] on line 160 changes nothing; and the override to CRITICAL
    applies exactly when the UPS is on battery and no metric is requested
    (every threshold absent or zero). *)
Theorem override_iff_nothing_requested args result v :
  try_body args result = Return v ->
  length (text v) = S (requested_count args) /\
  length (perfdata v) = requested_count args /\
  (on_batt v = true -> always_ok v = false) /\
  final_status v = if on_batt v && nothing_requested args then 2 else status v.
Proof.
  intros (apcinfo & tonbatt & _ & _ & _ & Hr & ->)%try_body_Return.
  pose proof (readings_length args apcinfo metrics Hr) as Hlen.
  fold (requested_count args) in Hlen.
  assert (Ht : length (text (vars_of args apcinfo tonbatt)) = S (requested_count args))
    by (cbn [text vars_of length]; now rewrite length_map, Hlen).
  split; [exact Ht|].
  split; [cbn [perfdata vars_of]; now rewrite length_map|].
  split; [cbn [on_batt always_ok vars_of]; intros ->; apply andb_false_r|].
  unfold final_status. rewrite Ht, nothing_requested_count.
  cbn [on_batt always_ok vars_of].
  destruct (gt tonbatt 0); cbn [andb negb]; [|reflexivity].
  rewrite andb_false_r. cbn [negb]. rewrite andb_true_r. reflexivity.
Qed.

Lemma override_iff_nothing_requested_witness :
  final_status (vars_of Scenario.charge_50
                  (Scenario.record "120 Seconds" "100.0 Percent") 120%float) = 0.
Proof.
  refine (eq_trans
    (proj2 (proj2 (proj2 (override_iff_nothing_requested Scenario.charge_50
       (Completed (Scenario.output "120 Seconds" "100.0 Percent")) _ _)))) _).
  - vm_compute. reflexivity.
  - vm_compute. reflexivity.
Defined.

Lemma vars_of_set_online_on_battery b args apcinfo tonbatt :
  gt tonbatt 0 = true ->
  vars_of (set_online b args) apcinfo tonbatt = vars_of args apcinfo tonbatt.
Proof.
  intros Hb. unfold vars_of. rewrite Hb. cbn [negb]. rewrite !andb_false_r.
  rewrite !severities_metrics, readings_set_online.
  now rewrite !(scores_ext args (set_online b args)) by reflexivity.
Qed.

(** X6: while the UPS is on battery the online flag changes nothing: the run
    with the flag and the run without it write the same line and exit with
    the same status, whatever thresholds are given. *)
Theorem online_flag_ignored_on_battery b args result apcinfo tonbatt :
  getAPCInfo result = Return apcinfo ->
  getValue apcinfo (u "TONBATT") true = Return tonbatt ->
  gt tonbatt 0 = true ->
  main (set_online b args) result = main args result.
Proof.
  intros Hi Ht Hb. rewrite !main_eq, Hi, Ht.
  change (accepted (set_online b args)) with (accepted args).
  change (all_readable (set_online b args) apcinfo) with (all_readable args apcinfo).
  now rewrite vars_of_set_online_on_battery.
Qed.

Lemma online_flag_ignored_on_battery_witness :
  main (set_online true Scenario.charge_50_20)
       (Completed (Scenario.output "120 Seconds" "10.0 Percent"))
  = main Scenario.charge_50_20
         (Completed (Scenario.output "120 Seconds" "10.0 Percent")).
Proof.
  apply (online_flag_ignored_on_battery true Scenario.charge_50_20
           (Completed (Scenario.output "120 Seconds" "10.0 Percent"))
           (Scenario.record "120 Seconds" "10.0 Percent") 120%float).
  - vm_compute. reflexivity.
  - vm_compute. reflexivity.
  - vm_compute. reflexivity.
Defined.

(** X7: when the UPS is not on battery and no metric is requested, the
    program prints [UPS OK - online;] and exits with status 0, with or
    without the online flag. *)
Theorem online_no_checks_ok args result apcinfo tonbatt :
  getAPCInfo result = Return apcinfo ->
  getValue apcinfo (u "TONBATT") true = Return tonbatt ->
  gt tonbatt 0 = false ->
  no_check_requested args ->
  main args result = Exit (u "UPS OK - online;" ++ nl) 0.
Proof.
  intros Hi Ht Hb Hno. unfold main, try_body.
  rewrite (parseCommandLine_no_charge args (proj1 Hno)). cbn [bind].
  rewrite Hi. cbn [bind]. rewrite run_checks_eq, Ht. cbv zeta. rewrite Hb.
  destruct (readings_none args apcinfo Hno) as [-> ->].
  unfold severities. destruct (online args && negb false); vm_compute; reflexivity.
Qed.

Lemma online_no_checks_ok_witness :
  main Scenario.no_flags (Completed (Scenario.output "0 Seconds" "100.0 Percent"))
    = Exit (u "UPS OK - online;" ++ nl) 0.
Proof.
  apply (online_no_checks_ok Scenario.no_flags
           (Completed (Scenario.output "0 Seconds" "100.0 Percent"))
           (Scenario.record "0 Seconds" "100.0 Percent") 0%float).
  - vm_compute. reflexivity.
  - vm_compute. reflexivity.
  - vm_compute. reflexivity.
  - repeat split.
Defined.

(** ** What a run reads *)

Lemma getValue_ext info info' key isFloat :
  info !! key = info' !! key -> getValue info key isFloat = getValue info' key isFloat.
Proof. unfold getValue. now intros ->. Qed.

Lemma reading_ext args apcinfo apcinfo' ms :
  Forall (fun key => apcinfo !! key = apcinfo' !! key)
         (map m_key (filter (fun m => requested m args = true) ms)) ->
  readings args apcinfo ms = readings args apcinfo' ms /\
  forallb (readable args apcinfo) ms = forallb (readable args apcinfo') ms.
Proof.
  induction ms as [|m ms IH]; [split; reflexivity|].
  rewrite filter_cons. unfold readings. cbn [flat_map forallb].
  unfold reading at 1 3, readable at 1 3.
  destruct (requested m args) eqn:Hreq.
  - destruct (decide (true = true)); [|congruence]. cbn [map].
    intros [Hm Hms]%Forall_cons. destruct (IH Hms) as [IH1 IH2].
    rewrite (getValue_ext apcinfo apcinfo' (m_key m) true Hm). fold (readings args apcinfo ms).
    fold (readings args apcinfo' ms). now rewrite IH1, IH2.
  - destruct (decide (false = true)); [discriminate|].
    intros Hms. destruct (IH Hms) as [IH1 IH2].
    fold (readings args apcinfo ms). fold (readings args apcinfo' ms).
    now rewrite IH1, IH2.
Qed.

(** X8: a run reads the status record only at [TONBATT] and at the keys of
    the requested metrics: two outputs of apcaccess whose records agree on
    these keys give the same line and the same exit status. *)
Theorem run_reads_needed_keys_only args result result' apcinfo apcinfo' :
  getAPCInfo result = Return apcinfo ->
  getAPCInfo result' = Return apcinfo' ->
  Forall (fun key => apcinfo !! key = apcinfo' !! key) (needed_keys args) ->
  main args result = main args result'.
Proof.
  intros Hi Hi' [Ht Hms]%Forall_cons.
  destruct (reading_ext args apcinfo apcinfo' metrics Hms) as [Hr Hb].
  rewrite !main_eq, Hi, Hi'. unfold all_readable, vars_of.
  rewrite (getValue_ext apcinfo apcinfo' (u "TONBATT") true Ht), Hr, Hb.
  reflexivity.
Qed.

Lemma run_reads_needed_keys_only_witness :
  main Scenario.charge_50_20 (Completed (Scenario.output "0 Seconds" "10.0 Percent"))
  = main Scenario.charge_50_20
         (Completed (u "BCHARGE: 10.0 Percent" ++ nl ++ u "TONBATT: 0 Seconds")).
Proof.
  apply (run_reads_needed_keys_only Scenario.charge_50_20
           (Completed (Scenario.output "0 Seconds" "10.0 Percent"))
           (Completed (u "BCHARGE: 10.0 Percent" ++ nl ++ u "TONBATT: 0 Seconds"))
           (Scenario.record "0 Seconds" "10.0 Percent")
           (<[u "TONBATT" := u "0 Seconds"]> (<[u "BCHARGE" := u "10.0 Percent"]> ∅))).
  - vm_compute. reflexivity.
  - vm_compute. reflexivity.
  - repeat constructor.
Defined.

(** ** The status as the worst result *)

Lemma aggregate_from_upper status l :
  Forall (fun x => x <= aggregate_from status l) l.
Proof.
  revert status. induction l as [|x l IH]; intros status; [constructor|].
  cbn [aggregate_from foldl]. fold (aggregate_from (update status x) l).
  constructor; [|apply IH].
  etransitivity; [|apply aggregate_from_ge]. rewrite update_max. lia.
Qed.

Lemma aggregate_from_attained status l :
  aggregate_from status l = status \/ aggregate_from status l ∈ l.
Proof.
  revert status. induction l as [|x l IH]; intros status; [now left|].
  cbn [aggregate_from foldl]. fold (aggregate_from (update status x) l).
  destruct (IH (update status x)) as [H|H].
  - rewrite H, update_max.
    destruct (Z.max_spec status x) as [[_ ->]|[_ ->]]; [right; now left | now left].
  - right. now right.
Qed.

Lemma aggregate_perm_le l l' : l ≡ₚ l' -> aggregate l <= aggregate l'.
Proof.
  intros Hp. unfold aggregate.
  destruct (aggregate_from_attained 0 l) as [->|Hin]; [apply aggregate_from_ge|].
  remember (aggregate_from 0 l) as a eqn:Ha. rewrite Hp in Hin.
  exact (proj1 (Forall_forall _ _) (aggregate_from_upper 0 l') _ Hin).
Qed.

(** X9: the status accumulated over the checks is the worst of the scored
    results, whatever their order: it bounds every scored result, it is OK or
    one of them, it is CRITICAL exactly when some scored result is, and OK
    exactly when all are. *)
Theorem status_is_worst_result :
  (forall l l', l ≡ₚ l' -> aggregate l = aggregate l') /\
  (forall args result v,
      try_body args result = Return v ->
      exists apcinfo,
        getAPCInfo result = Return apcinfo /\
        let results := severities args (always_ok v) (readings args apcinfo metrics) in
        Forall (fun x => x <= status v) results /\
        (status v = 0 \/ status v ∈ results) /\
        (status v = 2 <-> 2 ∈ results) /\
        (status v = 0 <-> Forall (fun x => x = 0) results)).
Proof.
  split.
  - intros l l' Hp. apply Z.le_antisymm; apply aggregate_perm_le; [exact Hp | now symmetry].
  - intros args result v (apcinfo & tonbatt & _ & Hi & _ & _ & ->)%try_body_Return.
    exists apcinfo. split; [exact Hi|]. cbn [status always_ok vars_of].
    set (results := severities args _ _).
    pose proof (aggregate_from_upper 0 results) as Hup.
    pose proof (aggregate_from_attained 0 results) as Hat.
    pose proof (severities_range args (online args && negb (gt tonbatt 0))
                  (readings args apcinfo metrics)) as Hrange.
    fold results in Hrange. unfold aggregate. clearbody results.
    cbv zeta. split; [exact Hup|]. split; [exact Hat|]. split; split.
    + intros H2. destruct Hat as [H|H]; [congruence | now rewrite <- H2].
    + intros Hin. pose proof (proj1 (Forall_forall _ _) Hup _ Hin) as Hle.
      cbn beta in Hle. apply Z.le_antisymm; [|exact Hle].
      destruct Hat as [->|H]; [lia|].
      pose proof (proj1 (Forall_forall _ _) Hrange _ H) as Hr. cbn beta in Hr. lia.
    + intros H0. rewrite H0 in Hup. apply Forall_forall. intros x Hx.
      pose proof (proj1 (Forall_forall _ _) Hup _ Hx).
      pose proof (proj1 (Forall_forall _ _) Hrange _ Hx). cbn in *. lia.
    + intros Hall. destruct Hat as [H|H]; [exact H|].
      exact (proj1 (Forall_forall _ _) Hall _ H).
Qed.

(** ** The parser *)

Lemma store_colon d line :
  has_colon line = true -> store d line = <[line_key line := line_value line]> d.
Proof.
  intros H. unfold store, line_key, line_value. rewrite H.
  now destruct (split_colon line).
Qed.

Lemma store_no_colon d line : has_colon line = false -> store d line = d.
Proof. intros H. unfold store. now rewrite H. Qed.

Lemma foldl_store_keep lines d key :
  Forall (fun line => has_colon line = true -> line_key line <> key) lines ->
  foldl store d lines !! key = d !! key.
Proof.
  intros H. revert d. induction H as [|line lines Hl _ IH]; intros d; [reflexivity|].
  cbn [foldl]. rewrite IH.
  destruct (has_colon line) eqn:Hc; [|now rewrite store_no_colon].
  rewrite store_colon by assumption. apply lookup_insert_ne. now apply Hl.
Qed.

(** X10: a line is split at its first colon, so that the value may contain
    colons; key and value are stripped; and when a key occurs on several
    lines the last one is kept. *)
Theorem parser_last_occurrence_wins text l1 l2 k v apcinfo :
  splitlines text = l1 ++ (k ++ colon :: v) :: l2 ->
  has_colon k = false ->
  Forall (fun line => has_colon line = true -> line_key line <> strip k) l2 ->
  getAPCInfo (Completed text) = Return apcinfo ->
  apcinfo !! strip k = Some (strip v).
Proof.
  intros Hlines Hk Hl2. rewrite getAPCInfo_Completed, Hlines. intros [= <-].
  rewrite foldl_app. cbn [foldl]. rewrite (foldl_store_keep l2 _ _ Hl2).
  rewrite store_colon by apply has_colon_app.
  unfold line_key, line_value. rewrite (split_colon_app k v Hk). apply lookup_insert_eq.
Qed.

Lemma parser_last_occurrence_wins_witness :
  foldl store ∅ [u "DATE : 2024-01-01 10:00:05"; u "BATTV: 12.0 Volts";
                 u "no colon here"; u " BATTV  :  13.5 Volts "]
    !! u "BATTV" = Some (u "13.5 Volts") /\
  foldl store ∅ [u "DATE : 2024-01-01 10:00:05"; u "BATTV: 12.0 Volts";
                 u "no colon here"; u " BATTV  :  13.5 Volts "]
    !! u "DATE" = Some (u "2024-01-01 10:00:05").
Proof.
  split.
  - refine (parser_last_occurrence_wins
              (u "DATE : 2024-01-01 10:00:05" ++ nl ++ u "BATTV: 12.0 Volts" ++ nl
                 ++ u "no colon here" ++ nl ++ u " BATTV  :  13.5 Volts ")
              [u "DATE : 2024-01-01 10:00:05"; u "BATTV: 12.0 Volts"; u "no colon here"]
              [] (u " BATTV  ") (u "  13.5 Volts ") _ _ _ _ _).
    + vm_compute. reflexivity.
    + reflexivity.
    + constructor.
    + reflexivity.
  - refine (parser_last_occurrence_wins
              (u "DATE : 2024-01-01 10:00:05" ++ nl ++ u "BATTV: 12.0 Volts" ++ nl
                 ++ u "no colon here" ++ nl ++ u " BATTV  :  13.5 Volts ")
              []
              [u "BATTV: 12.0 Volts"; u "no colon here"; u " BATTV  :  13.5 Volts "]
              (u "DATE ") (u " 2024-01-01 10:00:05") _ _ _ _ _).
    + vm_compute. reflexivity.
    + reflexivity.
    + repeat constructor; vm_compute; congruence.
    + reflexivity.
Defined.

Lemma lstrip_head s : head_fails isspace (lstrip s).
Proof.
  induction s as [|c s IH]; cbn; [exact I|].
  destruct (isspace c) eqn:E; [exact IH | exact E].
Qed.

Lemma lstrip_idem s : lstrip (lstrip s) = lstrip s.
Proof. apply lstrip_id, lstrip_head. Qed.

Lemma lstrip_suffix s : exists sp, s = sp ++ lstrip s.
Proof.
  induction s as [|c s [sp IH]]; cbn; [now exists []|].
  destruct (isspace c); [|now exists []].
  exists (c :: sp). cbn. now rewrite <- IH.
Qed.

Lemma rstrip_prefix s : exists t, s = rstrip s ++ t.
Proof.
  unfold rstrip. destruct (lstrip_suffix (rev s)) as [sp H].
  exists (rev sp). rewrite <- rev_app_distr, <- H. now rewrite rev_involutive.
Qed.

Lemma rstrip_idem s : rstrip (rstrip s) = rstrip s.
Proof. unfold rstrip. now rewrite rev_involutive, lstrip_idem. Qed.

Lemma lstrip_rstrip s : head_fails isspace s -> lstrip (rstrip s) = rstrip s.
Proof.
  intros H. apply lstrip_id. destruct (rstrip_prefix s) as [t Ht].
  destruct (rstrip s) as [|c r]; [exact I|]. rewrite Ht in H. exact H.
Qed.

(** Stripping twice is stripping once. *)
Lemma strip_idem s : strip (strip s) = strip s.
Proof.
  unfold strip. rewrite (lstrip_rstrip (lstrip s)) by apply lstrip_head.
  apply rstrip_idem.
Qed.

Lemma foldl_store_origin lines d key value :
  foldl store d lines !! key = Some value ->
  d !! key = Some value \/
  exists line, line ∈ lines /\ has_colon line = true /\
               key = line_key line /\ value = line_value line.
Proof.
  revert d. induction lines as [|line lines IH]; intros d; cbn [foldl]; [now left|].
  intros [H|(line' & Hin & H)]%IH.
  - destruct (has_colon line) eqn:Hc; [|rewrite store_no_colon in H by assumption; now left].
    rewrite store_colon in H by assumption.
    destruct (decide (line_key line = key)) as [<-|Hne].
    + rewrite lookup_insert_eq in H. injection H as <-.
      right. exists line. split; [now left | auto].
    + rewrite lookup_insert_ne in H by assumption. now left.
  - right. exists line'. split; [now right | exact H].
Qed.

(** X11: every entry of the parsed record comes from a line of the output
    that has a colon, as its stripped key and stripped value; in particular
    no key and no value of the record begins or ends with white space. *)
Theorem parser_entries_come_from_lines text apcinfo key value :
  getAPCInfo (Completed text) = Return apcinfo ->
  apcinfo !! key = Some value ->
  (exists line, line ∈ splitlines text /\ has_colon line = true /\
                key = line_key line /\ value = line_value line) /\
  strip key = key /\ strip value = value.
Proof.
  rewrite getAPCInfo_Completed. intros [= <-] Hl.
  destruct (foldl_store_origin _ _ _ _ Hl) as [H|(line & Hin & Hc & -> & ->)].
  - now rewrite lookup_empty in H.
  - split; [eauto|]. unfold line_key, line_value. split; apply strip_idem.
Qed.

Lemma parser_entries_come_from_lines_witness :
  strip (u "13.5 Volts") = u "13.5 Volts".
Proof.
  refine (proj2 (proj2 (parser_entries_come_from_lines
            (Scenario.output "0 Seconds" "100.0 Percent")
            (Scenario.record "0 Seconds" "100.0 Percent")
            (u "BATTV") (u "13.5 Volts") _ _))).
  - vm_compute. reflexivity.
  - vm_compute. reflexivity.
Defined.

Lemma splitlines_from_line eol cur l rest :
  eol = nl \/ eol = [13%N; 10%N] ->
  one_line l ->
  splitlines_from cur (l ++ eol ++ rest) = (rev cur ++ l) :: splitlines_from [] rest.
Proof.
  intros Heol Hl. revert cur. induction Hl as [|c l Hc _ IH]; intros cur.
  - rewrite app_nil_r. destruct Heol as [-> | ->]; [destruct rest|]; reflexivity.
  - cbn [app splitlines_from]. rewrite Hc, IH. cbn [rev]. now rewrite <- app_assoc.
Qed.

Lemma splitlines_terminated eol lines :
  eol = nl \/ eol = [13%N; 10%N] ->
  Forall one_line lines ->
  splitlines (terminated eol lines) = lines.
Proof.
  intros Heol H. unfold splitlines, terminated.
  induction H as [|l lines Hl _ IH]; [reflexivity|].
  cbn [map concat]. rewrite <- app_assoc.
  now rewrite (splitlines_from_line eol [] l _ Heol Hl), IH.
Qed.

(** X12: when every line of the output ends with a line feed, or every line
    with a carriage return and a line feed, the parser stores the lines one
    after the other, in their order. *)
Theorem parser_reads_terminated_lines eol lines :
  eol = nl \/ eol = [13%N; 10%N] ->
  Forall one_line lines ->
  getAPCInfo (Completed (terminated eol lines)) = Return (foldl store ∅ lines).
Proof.
  intros Heol H. now rewrite getAPCInfo_Completed, splitlines_terminated.
Qed.

Lemma parser_reads_terminated_lines_witness :
  getAPCInfo (Completed (terminated [13%N; 10%N]
                           [u "TONBATT  : 0 Seconds"; u "BCHARGE  : 100.0 Percent"]))
  = Return (<[u "BCHARGE" := u "100.0 Percent"]> (<[u "TONBATT" := u "0 Seconds"]> ∅)).
Proof.
  refine (eq_trans (parser_reads_terminated_lines [13%N; 10%N]
            [u "TONBATT  : 0 Seconds"; u "BCHARGE  : 100.0 Percent"] _ _) _).
  - now right.
  - repeat constructor.
  - vm_compute. reflexivity.
Defined.

(** ** The extractor *)

Lemma starts_number_false v :
  starts_number v = false ->
  head_fails issign v /\ head_fails isdigit v /\ head_fails isdot v.
Proof.
  destruct v as [|c v]; cbn; [auto|].
  intros [[Hs Hd]%orb_false_iff Hp]%orb_false_iff. auto.
Qed.

(** X13: only a number at the very start of the value is found.  When the
    value of the key is empty or begins with anything but a sign, a digit or a
    point, the extraction fails, even if a number comes later in the value;
    as for every failure of [getValue], what is raised is the [NameError] of
    the handler. *)
Theorem getValue_needs_leading_number info key v :
  info !! key = Some v ->
  starts_number v = false ->
  getValue info key true = Raise (NameError (u "exception")).
Proof.
  intros Hl (Hs & Hd & Hp)%starts_number_false.
  rewrite (getValue_float _ _ _ Hl). unfold match_number.
  rewrite (opt_miss issign v Hs).
  pose proof (span_app isdigit [] v (Forall_nil_2 _) Hd) as H. cbn [app] in H. rewrite H.
  rewrite (opt_miss isdot v Hp), H. reflexivity.
Qed.

Lemma getValue_needs_leading_number_witness :
  getValue (<[u "TIMELEFT" := u "about 45.0 Minutes"]> ∅) (u "TIMELEFT") true
    = Raise (NameError (u "exception")).
Proof.
  apply (getValue_needs_leading_number _ _ (u "about 45.0 Minutes")).
  - vm_compute. reflexivity.
  - reflexivity.
Defined.

(** X14: the number at the start of a value is read up to the first character
    that cannot continue it, with or without a space before the unit: for a
    value made of a signed decimal token followed by nothing, or by a
    character that is not a sign, a digit or a point, [getValue] returns the
    float value of the token. *)
Theorem getValue_reads_leading_token info key tok rest f :
  info !! key = Some (tok ++ rest) ->
  decimal_token tok ->
  starts_number rest = false ->
  float_of_str tok = Some f ->
  getValue info key true = Return f.
Proof.
  intros Hl Htok (Hs & Hd & Hp)%starts_number_false Hf.
  rewrite (getValue_float _ _ _ Hl), (match_number_token tok rest Htok Hs Hd Hp).
  cbn [fst]. now rewrite Hf.
Qed.

Lemma getValue_reads_leading_token_witness :
  getValue (<[u "BATTV" := u "13.5V (nominal 12.0)"]> ∅) (u "BATTV") true
    = Return 13.5%float.
Proof.
  apply (getValue_reads_leading_token _ _ (u "13.5") (u "V (nominal 12.0)")).
  - vm_compute. reflexivity.
  - apply (decimal_token_intro [] (u "13") (u ".") (u "5")); auto.
  - reflexivity.
  - vm_compute. reflexivity.
Defined.

(** ** Thresholds that are not numbers *)

Lemma lt_nan_r x : lt x nan = false.
Proof.
  unfold lt. rewrite ltb_spec. change (Prim2SF nan) with S754_nan.
  unfold SFltb. now destruct (Prim2SF x) as [| | |? ? ?].
Qed.

Lemma lt_nan_l x : lt nan x = false.
Proof.
  unfold lt. rewrite ltb_spec. change (Prim2SF nan) with S754_nan. reflexivity.
Qed.

(** X15: a threshold given as [nan] is not rejected by the range check of the
    charge thresholds and counts as given, so that its metric is displayed,
    but no value is beyond it: [checkValue] returns what it returns without
    that threshold. *)
Theorem nan_threshold_never_fires :
  out_of_range (Some nan) = false /\
  is_true (Some nan) = true /\
  (forall val warn crit dir,
      checkValue val (Some nan) crit dir = checkValue val None crit dir /\
      checkValue val warn (Some nan) dir = checkValue val warn None dir).
Proof.
  split; [|split; [reflexivity|]].
  - unfold out_of_range. unfold gt. now rewrite lt_nan_r, lt_nan_l, andb_false_r.
  - intros val warn crit dir. rewrite !checkValue_cases.
    assert (Hb : beyond dir val nan = false)
      by (destruct dir; [apply lt_nan_r | apply lt_nan_l]).
    now rewrite Hb, !andb_false_r.
Qed.

(** ** The severity word *)

